(** * GridManager: construction of an UnstructuredGrid from a deck, from
    cartesian dimensions or from a file (opm/core/grid/GridManager.cpp), and
    the MATLAB gateway reading a corner-point description (mxgrdecl.c).

    The C++ and C code is embedded shallowly: vectors are lists, the deck is
    a finite map from keyword names to keywords, [double] is IEEE binary64,
    exceptions and undefined reads are explicit outcomes, and the one heap
    buffer the manager allocates itself (MAPAXES) lives in an explicit heap. *)

From Stdlib Require Import ZArith String Floats.SpecFloat.
From stdpp Require Import gmap strings list pretty.

Open Scope string_scope.
Open Scope list_scope.
Open Scope Z_scope.

(** ** Machine numbers *)

(** [double]: IEEE 754 binary64 (53 bits of precision, exponents below 1024). *)
Definition double : Type := spec_float.

(** [a + b] on doubles, rounding to nearest. *)
Definition dadd (a b : double) : double := SFadd 53 1024 a b.

(** [a == b] on doubles: a NaN equals nothing, the two zeros are equal. *)
Definition deqb (a b : double) : bool := SFeqb a b.

(** The literals [0.0] and [1.0]. *)
Definition d0 : double := S754_zero false.
Definition d1 : double := S754_finite false 4503599627370496 (-52).

(** Two doubles denote the same number: they are the same datum, or both are
    a zero (of either sign). *)
Definition same_number (a b : double) : Prop :=
  match a, b with
  | S754_zero _, S754_zero _ => True
  | _, _ => a = b
  end.

Definition INT_MAX : Z := 2 ^ 31 - 1.

(** Conversion of an integer to the 32-bit [int]: the value modulo 2^32 taken
    in [-2^31, 2^31). *)
Definition to_int (z : Z) : Z := (z + 2 ^ 31) mod 2 ^ 32 - 2 ^ 31.

(** [int(v.size())]. *)
Definition int_of_size (n : nat) : Z := to_int (Z.of_nat n).

(** [a * b] on [size_t] (64 bits, unsigned). *)
Definition size_mul (a b : nat) : nat :=
  Z.to_nat ((Z.of_nat a * Z.of_nat b) mod 2 ^ 64).

(** ** Outcomes of a call *)

Inductive exception : Type :=
  | runtime_error (what : string)
      (* std::runtime_error, as OPM_THROW raises it *)
  | mex_error (what : string)
      (* the MATLAB error mexErrMsgTxt raises; control does not come back *)
  | deck_error.
      (* an exception of the Deck interface itself: an access that fails *)

Inductive outcome (A : Type) : Type :=
  | Returns (a : A)
  | Throws (e : exception)
  | Undefined.
      (* behaviour the language leaves undefined: a read out of bounds *)
Arguments Returns {A} a.
Arguments Throws {A} e.
Arguments Undefined {A}.

#[global] Instance outcome_ret : MRet outcome := λ A a, Returns a.
#[global] Instance outcome_bind : MBind outcome := λ A B f m,
  match m with
  | Returns a => f a
  | Throws e => Throws e
  | Undefined => Undefined
  end.

(** Modelled from the spec: OPM_THROW (opm/core/utility/ErrorMacros.hpp is not
    among the sources) raises the given exception carrying the given message. *)
Definition OPM_THROW {A : Type} (what : string) : outcome A :=
  Throws (runtime_error what).

(** ** The deck (section 6 of the specification: a keyword store queried by
    name; a keyword holds records, a record holds items, an item holds
    values) *)

(** Modelled from the spec: an item of the parser library's deck, a sequence
    of ints or of doubles already converted to SI units. *)
Inductive DeckItem : Type :=
  | DeckIntItem (data : list Z)
  | DeckDoubleItem (SIdata : list double).

Abbreviation DeckRecord := (list DeckItem).
Abbreviation DeckKeyword := (list DeckRecord).
Abbreviation Deck := (gmap string DeckKeyword).

(** Modelled from the spec: the Deck interface, [hasKeyword(name) -> bool] and
    [getKeyword(name) -> keyword handle] with record, item and value access;
    the parser library is not among the sources. An access to something the
    deck does not hold raises the interface's own exception. *)
Definition hasKeyword (deck : Deck) (name : string) : bool :=
  bool_decide (is_Some (deck !! name)).

(** Modelled from the spec: [getKeyword(name)] of the Deck interface. *)
Definition getKeyword (deck : Deck) (name : string) : outcome DeckKeyword :=
  match deck !! name with
  | Some kw => Returns kw
  | None => Throws deck_error
  end.

(** Modelled from the spec: indexed access of the Deck interface, checked. *)
Definition at_index {A : Type} (l : list A) (i : nat) : outcome A :=
  match l !! i with
  | Some a => Returns a
  | None => Throws deck_error
  end.

(** Modelled from the spec: [getRecord(i)] of a keyword. *)
Definition getRecord (kw : DeckKeyword) (i : nat) : outcome DeckRecord :=
  at_index kw i.

(** Modelled from the spec: [getItem(i)] of a record. *)
Definition getItem (rec : DeckRecord) (i : nat) : outcome DeckItem :=
  at_index rec i.

(** Modelled from the spec: [getInt(i)] of an item. *)
Definition getInt (item : DeckItem) (i : nat) : outcome Z :=
  match item with
  | DeckIntItem data => at_index data i
  | DeckDoubleItem _ => Throws deck_error
  end.

(** Modelled from the spec: [getSIDouble(i)] of an item. *)
Definition getSIDouble (item : DeckItem) (i : nat) : outcome double :=
  match item with
  | DeckDoubleItem data => at_index data i
  | DeckIntItem _ => Throws deck_error
  end.

(** Modelled from the spec: [getSIDoubleData()] of a keyword, the whole data
    of a data keyword: the values of the first item of its first record. *)
Definition getSIDoubleData (kw : DeckKeyword) : outcome (list double) :=
  rec ← getRecord kw 0;
  item ← getItem rec 0;
  match item with
  | DeckDoubleItem data => Returns data
  | DeckIntItem _ => Throws deck_error
  end.

(** Modelled from the spec: [getIntData()] of a keyword. *)
Definition getIntData (kw : DeckKeyword) : outcome (list Z) :=
  rec ← getRecord kw 0;
  item ← getItem rec 0;
  match item with
  | DeckIntItem data => Returns data
  | DeckDoubleItem _ => Throws deck_error
  end.

(** [v[i]] on a vector or through a pointer: a read out of bounds is
    undefined. *)
Definition element (v : list double) (i : nat) : outcome double :=
  match v !! i with
  | Some a => Returns a
  | None => Undefined
  end.

(** ** coordsFromDeltas (GridManager.cpp, anonymous namespace) *)

(** [std::partial_sum(first, last, out)]: the first value is copied, every
    later one is the running sum plus the next input. *)
Fixpoint partial_sum_from (acc : double) (rest : list double) : list double :=
  match rest with
  | [] => []
  | x :: rest' => let acc' := dadd acc x in acc' :: partial_sum_from acc' rest'
  end.

Definition partial_sum (l : list double) : list double :=
  match l with
  | [] => []
  | x :: rest => x :: partial_sum_from x rest
  end.

(** Writing a sequence through an output iterator that starts at [pos]. *)
Fixpoint write_from (out : list double) (pos : nat) (vals : list double)
  : list double :=
  match vals with
  | [] => out
  | v :: vals' => write_from (<[pos := v]> out) (S pos) vals'
  end.

Definition coordsFromDeltas (deltas : list double) : list double :=
  let coords := replicate (length deltas + 1) d0 in
  let coords := <[0%nat := d0]> coords in
  write_from coords 1 (partial_sum deltas).

(** ** The heap of [malloc]ed buffers of doubles, and commands over it *)

(** A block is addressed by where it starts; a cell holds [None] until it is
    first written. *)
Abbreviation heap := (gmap positive (list (option double))).

Definition M (A : Type) : Type := heap → outcome A * heap.

#[global] Instance M_ret : MRet M := λ A a h, (Returns a, h).
#[global] Instance M_bind : MBind M := λ A B f m h,
  match m h with
  | (Returns a, h') => f a h'
  | (Throws e, h') => (Throws e, h')
  | (Undefined, h') => (Undefined, h')
  end.

(** A computation that does not touch the heap. *)
Definition pure {A : Type} (o : outcome A) : M A := λ h, (o, h).

(** [malloc(n * sizeof(double))]: a block that was not allocated before, of
    [n] cells nobody has written. Allocation is taken to succeed, as the
    caller takes it (the result is used unchecked). *)
Definition malloc (n : nat) : M positive := λ h,
  let p := fresh (dom h) in (Returns p, <[p := replicate n None]> h).

(** [p[i] = v] *)
Definition store (p : positive) (i : nat) (v : double) : M unit := λ h,
  match h !! p with
  | Some block =>
      if decide (i < length block)%nat
      then (Returns (), <[p := <[i := Some v]> block]> h)
      else (Undefined, h)
  | None => (Undefined, h)
  end.

(** ** The corner-point input record (struct grdecl) *)

(** Where [grdecl.mapaxes] points. *)
Inductive mapaxes_ptr : Type :=
  | mapaxes_NULL
  | mapaxes_data (v : list double)   (* [v.data()] of a vector of the caller *)
  | mapaxes_block (p : positive).    (* the start of a [malloc]ed block *)

(** [coord], [zcorn] and [actnum] point at the first element of an array that
    outlives the record; forming [&v[0]] reads nothing, and the pointer stands
    for the array it gives access to. *)
Record grdecl : Type := {
  dims : Z * Z * Z;
  coord : list double;
  zcorn : list double;
  actnum : option (list Z);
  mapaxes : mapaxes_ptr;
}.

(** ** The grid library the manager calls (grid.h, cart_grid.h,
    cornerpoint_grid.h): builders that return a grid or a null pointer. Their
    code is not among the sources, so they are parameters: the corner-point
    builder gets the record and the heap its [mapaxes] may point into, and
    leaves a heap. *)
Class GridLibrary : Type := {
  UnstructuredGrid : Type;
  create_grid_cornerpoint :
    grdecl → double → heap → option UnstructuredGrid * heap;
  create_grid_cart2d : Z → Z → double → double → option UnstructuredGrid;
  create_grid_cart3d : Z → Z → Z → option UnstructuredGrid;
  create_grid_hexa3d :
    Z → Z → Z → double → double → double → option UnstructuredGrid;
  create_grid_tensor3d :
    Z → Z → Z → list double → list double → list double →
    option (list double) → option UnstructuredGrid;
  read_grid : string → option UnstructuredGrid;
}.

(** Modelled from the spec: the grid-geometry source of the parser library,
    as far as the manager reads it, three getters and four exports. *)
Record EclipseGrid : Type := {
  getNX : Z;
  getNY : Z;
  getNZ : Z;
  exportMAPAXES : list double;
  exportCOORD : list double;
  exportZCORN : list double;
  exportACTNUM : list Z;
}.

(** ** class GridManager *)

Section GridManager.
Context `{GL : GridLibrary}.

(** The one data member, [UnstructuredGrid* ug_]; [None] is the null pointer. *)
Record GridManager : Type := { ug_ : option UnstructuredGrid }.

(** [c_grid()] *)
Definition c_grid (gm : GridManager) : option UnstructuredGrid := ug_ gm.

(** The end of every constructor: [if (!ug_) OPM_THROW(std::runtime_error, what)]
    on the pointer just stored in [ug_]. *)
Definition constructed (ug : option UnstructuredGrid) (what : string)
  : outcome GridManager :=
  let this := {| ug_ := ug |} in
  match ug_ this with
  | None => OPM_THROW what
  | Some _ => Returns this
  end.

(** The call [create_grid_cornerpoint(&g, tol)] as a command: the builder
    reads the record and the heap, and may change the heap. *)
Definition cornerpoint_builder (g : grdecl) (tol : double)
  : M (option UnstructuredGrid) :=
  λ h, let '(ug, h') := create_grid_cornerpoint g tol h in (Returns ug, h').

(** [GridManager(Opm::EclipseGridConstPtr eclipseGrid)] *)
Definition GridManager_eclipseGrid (eclipseGrid : EclipseGrid) : M GridManager :=
  let mapaxes := exportMAPAXES eclipseGrid in
  let coord := exportCOORD eclipseGrid in
  let zcorn := exportZCORN eclipseGrid in
  let actnum := exportACTNUM eclipseGrid in
  let g := {| dims := (getNX eclipseGrid, getNY eclipseGrid, getNZ eclipseGrid);
              coord := coord;
              zcorn := zcorn;
              actnum := Some actnum;
              mapaxes := mapaxes_data mapaxes |} in
  ug ← cornerpoint_builder g d0;
  pure (constructed ug "Failed to construct grid.").

(** [GridManager(int nx, int ny)] *)
Definition GridManager_2d_unit (nx ny : Z) : outcome GridManager :=
  constructed (create_grid_cart2d nx ny d1 d1) "Failed to construct grid.".

(** [GridManager(int nx, int ny, double dx, double dy)] *)
Definition GridManager_2d (nx ny : Z) (dx dy : double) : outcome GridManager :=
  constructed (create_grid_cart2d nx ny dx dy) "Failed to construct grid.".

(** [GridManager(int nx, int ny, int nz)] *)
Definition GridManager_3d_unit (nx ny nz : Z) : outcome GridManager :=
  constructed (create_grid_cart3d nx ny nz) "Failed to construct grid.".

(** [GridManager(int nx, int ny, int nz, double dx, double dy, double dz)] *)
Definition GridManager_3d (nx ny nz : Z) (dx dy dz : double)
  : outcome GridManager :=
  constructed (create_grid_hexa3d nx ny nz dx dy dz) "Failed to construct grid.".

(** [GridManager(const std::string& input_filename)] *)
Definition GridManager_file (input_filename : string) : outcome GridManager :=
  constructed (read_grid input_filename)
    ("Failed to read grid from file " +:+ input_filename).

(** [kw->getRecord(0)->getItem(i)->getInt(0)] *)
Definition record0_int (kw : DeckKeyword) (i : nat) : outcome Z :=
  rec ← getRecord kw 0; item ← getItem rec i; getInt item 0.

(** The logical cartesian size, resolved by the same statements in
    [createGrdecl] (lines 185-198) and in [initFromDeckTensorgrid]
    (lines 241-254). *)
Definition logical_dims (deck : Deck) : outcome (Z * Z * Z) :=
  if hasKeyword deck "DIMENS" then
    dimensKeyword ← getKeyword deck "DIMENS";
    nx ← record0_int dimensKeyword 0;
    ny ← record0_int dimensKeyword 1;
    nz ← record0_int dimensKeyword 2;
    Returns (nx, ny, nz)
  else if hasKeyword deck "SPECGRID" then
    specgridKeyword ← getKeyword deck "SPECGRID";
    nx ← record0_int specgridKeyword 0;
    ny ← record0_int specgridKeyword 1;
    nz ← record0_int specgridKeyword 2;
    Returns (nx, ny, nz)
  else OPM_THROW "Deck must have either DIMENS or SPECGRID.".

(** [deck->getKeyword(name)->getSIDoubleData()] *)
Definition keyword_SIDoubleData (deck : Deck) (name : string)
  : outcome (list double) :=
  kw ← getKeyword deck name; getSIDoubleData kw.

(** The loop of [createGrdecl] that fills the buffer: [n] more rounds from
    index [i], each reading item [i] of the record and storing it at [i]. *)
Fixpoint copy_mapaxes (mapaxesRecord : DeckRecord) (cWtfMapaxes : positive)
    (i n : nat) : M unit :=
  match n with
  | O => mret ()
  | S n' =>
      v ← pure (item ← getItem mapaxesRecord i; getSIDouble item 0);
      _ ← store cWtfMapaxes i v;
      copy_mapaxes mapaxesRecord cWtfMapaxes (S i) n'
  end.

(** The ACTNUM pointer of [createGrdecl] (lines 180-183): null unless the
    deck has the keyword. *)
Definition actnum_pointer (deck : Deck) : outcome (option (list Z)) :=
  if hasKeyword deck "ACTNUM" then
    kw ← getKeyword deck "ACTNUM";
    data ← getIntData kw;
    Returns (Some data)
  else Returns None.

(** The MAPAXES pointer of [createGrdecl] (lines 209-222): a fresh buffer
    filled from the first record of the keyword, or null. *)
Definition mapaxes_pointer (deck : Deck) : M mapaxes_ptr :=
  if hasKeyword deck "MAPAXES" then
    mapaxesRecord ← pure (mapaxesKeyword ← getKeyword deck "MAPAXES";
                          getRecord mapaxesKeyword 0);
    cWtfMapaxes ← malloc (length mapaxesRecord);
    _ ← copy_mapaxes mapaxesRecord cWtfMapaxes 0 (length mapaxesRecord);
    mret (mapaxes_block cWtfMapaxes)
  else mret mapaxes_NULL.

(** [createGrdecl(deck, grdecl)]; the record filled in is the result. *)
Definition createGrdecl (deck : Deck) : M grdecl :=
  zcorn ← pure (keyword_SIDoubleData deck "ZCORN");
  coord ← pure (keyword_SIDoubleData deck "COORD");
  actnum ← pure (actnum_pointer deck);
  dims ← pure (logical_dims deck);
  mapaxes ← mapaxes_pointer deck;
  mret {| dims := dims; coord := coord; zcorn := zcorn; actnum := actnum;
          mapaxes := mapaxes |}.

(** [initFromDeckCornerpoint(deck)] *)
Definition initFromDeckCornerpoint (deck : Deck) : M GridManager :=
  grdecl ← createGrdecl deck;
  ug ← cornerpoint_builder grdecl d0;
  pure (constructed ug "Failed to construct grid.").

(** [std::count(first, last, value)]: the elements [e] with [e == value]. *)
Definition count (v : list double) (value : double) : nat :=
  length (filter (λ e, deqb e value = true) v).

(** The top corner depths of [initFromDeckTensorgrid] (lines 276-294): a null
    pointer, the DEPTHZ data, or a vector filled with the TOPS value. *)
Definition top_corner_depths (deck : Deck) (x y : list double)
  : outcome (option (list double)) :=
  if hasKeyword deck "DEPTHZ" then
    depthz ← keyword_SIDoubleData deck "DEPTHZ";
    if bool_decide (length depthz ≠ size_mul (length x) (length y))
    then OPM_THROW ("Incorrect size of DEPTHZ: " +:+ pretty (length depthz))
    else Returns (Some depthz)
  else if hasKeyword deck "TOPS" then
    tops ← keyword_SIDoubleData deck "TOPS";
    tops0 ← element tops 0;
    if bool_decide (Z.of_nat (count tops tops0) ≠ int_of_size (length tops))
    then OPM_THROW
           "We do not support nonuniform TOPS, please use ZCORN/COORDS instead."
    else Returns (Some (replicate (size_mul (length x) (length y)) tops0))
  else Returns None.

(** [initFromDeckTensorgrid(deck)] *)
Definition initFromDeckTensorgrid (deck : Deck) : outcome GridManager :=
  '(nx, ny, nz) ← logical_dims deck;
  dxv ← keyword_SIDoubleData deck "DXV";
  dyv ← keyword_SIDoubleData deck "DYV";
  dzv ← keyword_SIDoubleData deck "DZV";
  let x := coordsFromDeltas dxv in
  let y := coordsFromDeltas dyv in
  let z := coordsFromDeltas dzv in
  if bool_decide (nx ≠ int_of_size (length dxv)) then
    OPM_THROW "Number of DXV data points do not match DIMENS or SPECGRID."
  else if bool_decide (ny ≠ int_of_size (length dyv)) then
    OPM_THROW "Number of DYV data points do not match DIMENS or SPECGRID."
  else if bool_decide (nz ≠ int_of_size (length dzv)) then
    OPM_THROW "Number of DZV data points do not match DIMENS or SPECGRID."
  else
    top_depths ← top_corner_depths deck x y;
    constructed
      (create_grid_tensor3d (int_of_size (length dxv)) (int_of_size (length dyv))
         (int_of_size (length dzv)) x y z top_depths)
      "Failed to construct grid.".

(** [GridManager(Opm::DeckConstPtr deck)] *)
Definition GridManager_deck (deck : Deck) : M GridManager :=
  if hasKeyword deck "ZCORN" && hasKeyword deck "COORD" then
    initFromDeckCornerpoint deck
  else if hasKeyword deck "DXV" && hasKeyword deck "DYV" && hasKeyword deck "DZV"
  then pure (initFromDeckTensorgrid deck)
  else pure (OPM_THROW ("Could not initialize grid from deck. " +:+
                        "Need either ZCORN + COORD or DXV + DYV + DZV keywords.")).

(** The constructors together: one case per constructor of the class. *)
Inductive construction : Type :=
  | from_eclipseGrid (eclipseGrid : EclipseGrid)
  | from_deck (deck : Deck)
  | cartesian_2d_unit (nx ny : Z)
  | cartesian_2d (nx ny : Z) (dx dy : double)
  | cartesian_3d_unit (nx ny nz : Z)
  | cartesian_3d (nx ny nz : Z) (dx dy dz : double)
  | from_file (input_filename : string).

Definition construct (c : construction) : M GridManager :=
  match c with
  | from_eclipseGrid eclipseGrid => GridManager_eclipseGrid eclipseGrid
  | from_deck deck => GridManager_deck deck
  | cartesian_2d_unit nx ny => pure (GridManager_2d_unit nx ny)
  | cartesian_2d nx ny dx dy => pure (GridManager_2d nx ny dx dy)
  | cartesian_3d_unit nx ny nz => pure (GridManager_3d_unit nx ny nz)
  | cartesian_3d nx ny nz dx dy dz => pure (GridManager_3d nx ny nz dx dy dz)
  | from_file input_filename => pure (GridManager_file input_filename)
  end.

End GridManager.

(** ** mx_init_grdecl (mxgrdecl.c) *)

(** A MATLAB array, as far as the gateway looks at it: its class and its
    elements. *)
Inductive mxArray : Type :=
  | mxDoubleArray (pr : list double)     (* mxDOUBLE_CLASS *)
  | mxInt32Array (data : list Z)         (* mxINT32_CLASS *)
  | mxOtherArray (numel : nat).          (* any other class *)

Inductive mxClassID : Type := mxDOUBLE_CLASS | mxINT32_CLASS | mxOTHER_CLASS.

Definition mxGetClassID (a : mxArray) : mxClassID :=
  match a with
  | mxDoubleArray _ => mxDOUBLE_CLASS
  | mxInt32Array _ => mxINT32_CLASS
  | mxOtherArray _ => mxOTHER_CLASS
  end.

#[global] Instance mxClassID_eq_dec : EqDecision mxClassID.
Proof. solve_decision. Defined.

(** [mxGetNumberOfElements], stored in an [int]. *)
Definition mxGetNumberOfElements (a : mxArray) : Z :=
  match a with
  | mxDoubleArray pr => int_of_size (length pr)
  | mxInt32Array data => int_of_size (length data)
  | mxOtherArray numel => int_of_size numel
  end.

(** [mxGetField(s, 0, name)] of a struct; the gateway uses the result
    unchecked, so a missing field is a null pointer dereferenced. *)
Definition mxGetField (s : gmap string mxArray) (name : string) : outcome mxArray :=
  match s !! name with
  | Some field => Returns field
  | None => Undefined
  end.

(** [mxGetPr(field)[i]]: defined when the array holds doubles and [i] is in
    bounds. *)
Definition mxGetPr_at (field : mxArray) (i : nat) : outcome double :=
  match field with
  | mxDoubleArray pr => element pr i
  | _ => Undefined
  end.

(** Conversion of a double to [int]: truncation towards zero, undefined for
    a NaN, an infinity or a value out of range. *)
Definition int_of_double (x : double) : outcome Z :=
  match x with
  | S754_zero _ => Returns 0
  | S754_finite s m e =>
      let z := cond_Zopp s (Z.shiftl (Z.pos m) e) in
      if bool_decide (- 2 ^ 31 ≤ z ≤ INT_MAX) then Returns z else Undefined
  | _ => Undefined
  end.

(** Conversion of an [int] to double (exact). *)
Definition double_of_int (n : Z) : double := binary_normalize 53 1024 n 0 false.

(** [a * b] and [a + b] on [int]: overflow is undefined. *)
Definition int_mul (a b : Z) : outcome Z :=
  if bool_decide (- 2 ^ 31 ≤ a * b ≤ INT_MAX) then Returns (a * b) else Undefined.

Definition int_add (a b : Z) : outcome Z :=
  if bool_decide (- 2 ^ 31 ≤ a + b ≤ INT_MAX) then Returns (a + b) else Undefined.

Definition mexErrMsgTxt {A : Type} (what : string) : outcome A :=
  Throws (mex_error what).

(** One round of the loop over [cartDims]: [g->dims[i] = tmp[i]; n *= tmp[i];]
    returns the dimension and the new [n]. *)
Definition cartDims_round (field : mxArray) (i : nat) (n : Z) : outcome (Z * Z) :=
  tmp_i ← mxGetPr_at field i;
  dim ← int_of_double tmp_i;
  n' ← int_of_double (SFmul 53 1024 (double_of_int n) tmp_i);
  Returns (dim, n').

(** [mx_init_grdecl(g, s)]: the record [g] with the fields the gateway
    assigns. *)
Definition mx_init_grdecl (g : grdecl) (s : gmap string mxArray) : outcome grdecl :=
  field ← mxGetField s "cartDims";
  let numel := mxGetNumberOfElements field in
  if bool_decide (numel ≠ 3) then mexErrMsgTxt "cartDims field must be 3 numbers"
  else
    '(nx, n) ← cartDims_round field 0 1;
    '(ny, n) ← cartDims_round field 1 n;
    '(nz, n) ← cartDims_round field 2 n;
    field ← mxGetField s "ACTNUM";
    let numel := mxGetNumberOfElements field in
    bad ← (if bool_decide (mxGetClassID field ≠ mxINT32_CLASS) then Returns true
           else nxy ← int_mul nx ny; nxyz ← int_mul nxy nz;
                Returns (bool_decide (numel ≠ nxyz)));
    if bad : bool then mexErrMsgTxt "ACTNUM field must be nx*ny*nz numbers int32"
    else
      let actnum := match field with mxInt32Array data => Some data | _ => None end in
      field ← mxGetField s "COORD";
      let numel := mxGetNumberOfElements field in
      bad ← (if bool_decide (mxGetClassID field ≠ mxDOUBLE_CLASS) then Returns true
             else nx1 ← int_add nx 1; a ← int_mul 6 nx1;
                  ny1 ← int_add ny 1; b ← int_mul a ny1;
                  Returns (bool_decide (numel ≠ b)));
      if bad : bool then mexErrMsgTxt "COORD field must have 6*(nx+1)*(ny+1) doubles."
      else
        let coord := match field with mxDoubleArray pr => pr | _ => [] end in
        field ← mxGetField s "ZCORN";
        let numel := mxGetNumberOfElements field in
        bad ← (if bool_decide (mxGetClassID field ≠ mxDOUBLE_CLASS) then Returns true
               else a ← int_mul 8 nx; b ← int_mul a ny; c ← int_mul b nz;
                    Returns (bool_decide (numel ≠ c)));
        if bad : bool then mexErrMsgTxt "ZCORN field must have 8*nx*ny*nz doubles."
        else
          let zcorn := match field with mxDoubleArray pr => pr | _ => [] end in
          Returns {| dims := (nx, ny, nz); coord := coord; zcorn := zcorn;
                     actnum := actnum; mapaxes := mapaxes g |}.

(** ** A grid library to run the manager on: a grid is its number of cells *)

Definition cells_of_dims (nx ny nz : Z) : option Z :=
  if bool_decide (0 < nx ∧ 0 < ny ∧ 0 < nz) then Some (nx * ny * nz) else None.

Definition cell_count_library : GridLibrary := {|
  UnstructuredGrid := Z;
  create_grid_cornerpoint := λ g tol h,
    let '(nx, ny, nz) := dims g in (cells_of_dims nx ny nz, h);
  create_grid_cart2d := λ nx ny dx dy, cells_of_dims nx ny 1;
  create_grid_cart3d := λ nx ny nz, cells_of_dims nx ny nz;
  create_grid_hexa3d := λ nx ny nz dx dy dz, cells_of_dims nx ny nz;
  create_grid_tensor3d := λ nx ny nz x y z top_depths, cells_of_dims nx ny nz;
  read_grid := λ file, None;
|}.

(** A manager of that library holding a grid of [n] cells. *)
Definition manager_of_cells (n : Z) : @GridManager cell_count_library :=
  @Build_GridManager cell_count_library (Some n).

(** The doubles 2.0, 5.0, 6.0 and -0.0, and keywords to build decks from. *)
Definition d2 : double := S754_finite false 4503599627370496 (-51).
Definition d5 : double := S754_finite false 5629499534213120 (-50).
Definition d6 : double := S754_finite false 6755399441055744 (-50).
Definition negative_zero : double := S754_zero true.

Definition data_keyword (data : list double) : DeckKeyword :=
  [[DeckDoubleItem data]].

Definition dims_keyword (nx ny nz : Z) : DeckKeyword :=
  [[DeckIntItem [nx]; DeckIntItem [ny]; DeckIntItem [nz]]].

(** Decks to run the constructors on. *)

(** The scenario of the specification: DIMENS = (2,2,1), DXV = [1,1],
    DYV = [1,1], DZV = [1] and a uniform TOPS. *)
Definition deck_tensor : Deck :=
  <["DIMENS" := dims_keyword 2 2 1]> (
  <["DXV" := data_keyword [d1; d1]]> (
  <["DYV" := data_keyword [d1; d1]]> (
  <["DZV" := data_keyword [d1]]> (
  <["TOPS" := data_keyword [d5; d5; d5; d5]]> ∅)))).

(** The same with TOPS = [5,5,6,5]. *)
Definition deck_nonuniform_tops : Deck :=
  <["TOPS" := data_keyword [d5; d5; d6; d5]]> deck_tensor.

(** The same with a TOPS keyword that holds no value. *)
Definition deck_empty_tops : Deck :=
  <["TOPS" := data_keyword []]> deck_tensor.

(** The non-uniform deck with a DEPTHZ of the right size (3 by 3 nodes). *)
Definition deck_depthz : Deck :=
  <["DEPTHZ" := data_keyword (replicate 9 d5)]> deck_nonuniform_tops.

(** One cell in corner-point form: 8 corner depths, 4 pillars. *)
Definition deck_cornerpoint : Deck :=
  <["SPECGRID" := dims_keyword 1 1 1]> (
  <["ZCORN" := data_keyword (replicate 4 d0 ++ replicate 4 d1)]> (
  <["COORD" := data_keyword (replicate 24 d0)]> ∅)).

(** Both families of keywords at once. *)
Definition deck_both : Deck :=
  <["ZCORN" := data_keyword (replicate 4 d0 ++ replicate 4 d1)]> (
  <["COORD" := data_keyword (replicate 24 d0)]> deck_tensor).

(** One cell declared, but only 7 corner depths given. *)
Definition deck_short_zcorn : Deck :=
  <["ZCORN" := data_keyword (replicate 7 d0)]> deck_cornerpoint.

(** The corner-point cell with a MAPAXES record of six values. *)
Definition deck_mapaxes : Deck :=
  <["MAPAXES" := [[DeckDoubleItem [d0]; DeckDoubleItem [d1]; DeckDoubleItem [d0];
                   DeckDoubleItem [d0]; DeckDoubleItem [d1]; DeckDoubleItem [d0]]]]>
  deck_cornerpoint.

(** The tensor deck declared one cell too wide: DIMENS = (3,2,1). *)
Definition deck_wide_dims : Deck :=
  <["DIMENS" := dims_keyword 3 2 1]> deck_tensor.

(** A MATLAB struct describing one cell, and the same with 7 corner depths. *)
Definition mx_one_cell : gmap string mxArray :=
  <["cartDims" := mxDoubleArray [d1; d1; d1]]> (
  <["ACTNUM" := mxInt32Array [1]]> (
  <["COORD" := mxDoubleArray (replicate 24 d0)]> (
  <["ZCORN" := mxDoubleArray (replicate 4 d0 ++ replicate 4 d1)]> ∅))).

Definition mx_short_zcorn : gmap string mxArray :=
  <["ZCORN" := mxDoubleArray (replicate 7 d0)]> mx_one_cell.

(** A record before the gateway fills it in. *)
Definition grdecl_blank : grdecl :=
  {| dims := (0, 0, 0); coord := []; zcorn := []; actnum := None;
     mapaxes := mapaxes_NULL |}.

(** ** Further inputs and reference functions *)

(** The sum of a sequence of doubles taken from left to right, as a loop
    with one accumulator computes it; the empty sum is 0.0. *)
Definition running_sum (l : list double) : double :=
  match l with
  | [] => d0
  | x :: rest => fold_left dadd rest x
  end.

Definition NaN : double := S754_nan.

(** The tensor deck with a DEPTHZ of 4 values where 9 are needed. *)
Definition deck_short_depthz : Deck :=
  <["DEPTHZ" := data_keyword (replicate 4 d5)]> deck_tensor.

(** The tensor deck without TOPS (and without DEPTHZ). *)
Definition deck_no_tops : Deck := delete "TOPS" deck_tensor.

(** The tensor deck with TOPS = [NaN, NaN, NaN, NaN]. *)
Definition deck_nan_tops : Deck :=
  <["TOPS" := data_keyword (replicate 4 NaN)]> deck_tensor.

(** The corner-point cell with a MAPAXES record whose third item holds ints. *)
Definition deck_int_mapaxes : Deck :=
  <["MAPAXES" := [[DeckDoubleItem [d0]; DeckDoubleItem [d1]; DeckIntItem [0];
                   DeckDoubleItem [d0]; DeckDoubleItem [d1]; DeckDoubleItem [d0]]]]>
  deck_cornerpoint.

(** A MATLAB struct with two dimensions only, and one whose ACTNUM holds
    doubles. *)
Definition mx_two_dims : gmap string mxArray :=
  <["cartDims" := mxDoubleArray [d1; d1]]> mx_one_cell.

Definition mx_double_actnum : gmap string mxArray :=
  <["ACTNUM" := mxDoubleArray [d1]]> mx_one_cell.

(** The messages a construction can fail with. *)
Definition construction_message (what : string) : Prop :=
  what = "Failed to construct grid." ∨
  (∃ input_filename, what = "Failed to read grid from file " +:+ input_filename) ∨
  what = "Could not initialize grid from deck. Need either ZCORN + COORD or DXV + DYV + DZV keywords." ∨
  what = "Deck must have either DIMENS or SPECGRID." ∨
  what = "Number of DXV data points do not match DIMENS or SPECGRID." ∨
  what = "Number of DYV data points do not match DIMENS or SPECGRID." ∨
  what = "Number of DZV data points do not match DIMENS or SPECGRID." ∨
  (∃ size : nat, what = "Incorrect size of DEPTHZ: " +:+ pretty size) ∨
  what = "We do not support nonuniform TOPS, please use ZCORN/COORDS instead.".

(** ** remove_duplicate_libraries (the package-finding module of the build) *)

(** [list (REMOVE_DUPLICATES l)]: of equal items only the first instance
    stays; [seen] are the items met so far. *)
Fixpoint REMOVE_DUPLICATES_from (seen l : list string) : list string :=
  match l with
  | [] => []
  | x :: rest =>
      if decide (x ∈ seen) then REMOVE_DUPLICATES_from seen rest
      else x :: REMOVE_DUPLICATES_from (x :: seen) rest
  end.

Definition REMOVE_DUPLICATES (l : list string) : list string :=
  REMOVE_DUPLICATES_from [] l.

(** [remove_duplicate_libraries (module)] on the variable
    [${module}_LIBRARIES]: [None] is a variable that is not defined. *)
Definition remove_duplicate_libraries (libraries : option (list string))
  : option (list string) :=
  match libraries with
  | Some l => Some (reverse (REMOVE_DUPLICATES (reverse l)))
  | None => None
  end.

(** * Properties *)

(** ** Numbers *)

Lemma same_number_refl (a : double) : same_number a a.
Proof. destruct a as [[]|[]| |[] m e]; simpl; trivial. Qed.

Lemma same_number_sym (a b : double) : same_number a b → same_number b a.
Proof.
  destruct a as [[]|[]| |[] m e], b as [[]|[]| |[] m' e']; simpl; trivial;
    intros H; congruence.
Qed.

(** Adding to [0.0] gives back the same number; the datum differs only for
    a negative zero, which becomes the positive one. *)
Lemma dadd_d0_l (a : double) : same_number (dadd d0 a) a.
Proof. destruct a as [[]|[]| |[] m e]; simpl; trivial. Qed.

Lemma dadd_d0_l_exact (a : double) : a ≠ negative_zero → dadd d0 a = a.
Proof.
  unfold negative_zero.
  destruct a as [[]|[]| |[] m e]; simpl; intros Hz; try reflexivity.
  by destruct Hz.
Qed.

Lemma to_int_small (z : Z) : - 2 ^ 31 ≤ z ≤ INT_MAX → to_int z = z.
Proof.
  unfold to_int, INT_MAX. intros Hz.
  rewrite Z.mod_small; lia.
Qed.

Lemma int_of_size_small (n : nat) : Z.of_nat n ≤ INT_MAX → int_of_size n = Z.of_nat n.
Proof. intros Hn. apply to_int_small. unfold INT_MAX in *. lia. Qed.

Lemma size_mul_small (a b : nat) :
  Z.of_nat a ≤ 2 ^ 31 → Z.of_nat b ≤ 2 ^ 31 → size_mul a b = (a * b)%nat.
Proof.
  intros Ha Hb. unfold size_mul.
  rewrite Z.mod_small; [lia | nia].
Qed.

(** ** coordsFromDeltas *)

Lemma length_partial_sum_from (rest : list double) (acc : double) :
  length (partial_sum_from acc rest) = length rest.
Proof.
  revert acc. induction rest as [|x rest IH]; intros acc; simpl; [done|].
  by rewrite IH.
Qed.

Lemma length_partial_sum (l : list double) : length (partial_sum l) = length l.
Proof. destruct l; simpl; [done|]. by rewrite length_partial_sum_from. Qed.

(** Writing [vals] at [pos] into a vector they exactly fit in replaces its
    tail. *)
Lemma write_from_fits (vals out : list double) (pos : nat) :
  length out = (pos + length vals)%nat →
  write_from out pos vals = take pos out ++ vals.
Proof.
  revert out pos. induction vals as [|v vals IH]; intros out pos Hlen; simpl in *.
  - rewrite take_ge by lia. by rewrite app_nil_r.
  - rewrite IH by (rewrite length_insert; lia).
    rewrite (take_S_r _ pos v) by (apply list_lookup_insert_eq; lia).
    rewrite take_insert_ge by lia.
    by rewrite <- app_assoc.
Qed.

(** The vector built is [0.0] followed by the partial sums of the deltas. *)
Lemma coordsFromDeltas_partial_sum (deltas : list double) :
  coordsFromDeltas deltas = d0 :: partial_sum deltas.
Proof.
  unfold coordsFromDeltas.
  rewrite write_from_fits.
  - by rewrite Nat.add_1_r.
  - rewrite length_insert, length_replicate, length_partial_sum. lia.
Qed.

(** Every running sum after the first one adds one delta to the sum before. *)
Lemma partial_sum_from_step (rest : list double) (acc : double) (k : nat) (c : double) :
  partial_sum_from acc rest !! S k = Some c →
  ∃ cprev dl, partial_sum_from acc rest !! k = Some cprev ∧
              rest !! S k = Some dl ∧ c = dadd cprev dl.
Proof.
  revert acc k. induction rest as [|x rest IH]; intros acc k Hc; simpl in *; [done|].
  destruct k as [|k].
  - destruct rest as [|x' rest]; simpl in *; [done|].
    injection Hc as <-. eauto.
  - apply IH in Hc as (cprev & dl & ? & ? & ?). eauto.
Qed.

Lemma partial_sum_step (l : list double) (k : nat) (c : double) :
  partial_sum l !! S k = Some c →
  ∃ cprev dl, partial_sum l !! k = Some cprev ∧ l !! S k = Some dl ∧
              c = dadd cprev dl.
Proof.
  destruct l as [|x rest]; simpl; [done|]. intros Hc.
  destruct k as [|k].
  - destruct rest as [|x' rest]; simpl in *; [done|].
    injection Hc as <-. eauto.
  - apply partial_sum_from_step in Hc as (cprev & dl & ? & ? & ?). eauto.
Qed.

Lemma partial_sum_first (l : list double) : partial_sum l !! 0%nat = l !! 0%nat.
Proof. by destruct l. Qed.

(** The coordinate vector has one entry more than there are deltas, starts
    with [0.0], and each later entry is the one before plus one delta. *)
Lemma coordsFromDeltas_cumulative (deltas : list double) :
  length (coordsFromDeltas deltas) = S (length deltas) ∧
  coordsFromDeltas deltas !! 0%nat = Some d0 ∧
  ∀ i : nat, (1 ≤ i ≤ length deltas)%nat →
    ∃ c cprev dl,
      coordsFromDeltas deltas !! i = Some c ∧
      coordsFromDeltas deltas !! (i - 1)%nat = Some cprev ∧
      deltas !! (i - 1)%nat = Some dl ∧
      same_number c (dadd cprev dl) ∧
      (2 ≤ i → c = dadd cprev dl)%nat ∧
      (i = 1%nat → c = dl).
Proof.
  rewrite coordsFromDeltas_partial_sum. simpl.
  split; [by rewrite length_partial_sum|]. split; [done|].
  intros i [Hi1 Hin].
  destruct i as [|k]; [lia|]. simpl. rewrite Nat.sub_0_r.
  destruct (lookup_lt_is_Some_2 (partial_sum deltas) k) as [c Hc];
    [rewrite length_partial_sum; lia|].
  destruct k as [|k].
  - exists c, d0, c. simpl.
    split; [done|]. split; [done|].
    split; [by rewrite <- partial_sum_first|].
    split; [apply same_number_sym, dadd_d0_l|].
    split; [lia | done].
  - destruct (partial_sum_step _ _ _ Hc) as (cprev & dl & Hprev & Hdl & ->).
    exists (dadd cprev dl), cprev, dl. simpl.
    split; [done|]. split; [done|]. split; [done|].
    split; [apply same_number_refl|].
    split; [done | lia].
Qed.

(** The one place where the data differ: a first delta of -0.0 is stored as
    it is, while 0.0 + -0.0 is +0.0. *)
Lemma coordsFromDeltas_negative_zero :
  coordsFromDeltas [negative_zero] = [d0; negative_zero] ∧
  dadd d0 negative_zero = d0 ∧
  deqb negative_zero (dadd d0 negative_zero) = true.
Proof. repeat split. Qed.

Lemma length_coordsFromDeltas (deltas : list double) :
  length (coordsFromDeltas deltas) = S (length deltas).
Proof. apply coordsFromDeltas_cumulative. Qed.

(** ** The deck interface *)

Lemma hasKeyword_Some (deck : Deck) (name : string) (kw : DeckKeyword) :
  deck !! name = Some kw → hasKeyword deck name = true.
Proof. intros H. unfold hasKeyword. rewrite H. by apply bool_decide_eq_true. Qed.

Lemma hasKeyword_None (deck : Deck) (name : string) :
  deck !! name = None → hasKeyword deck name = false.
Proof.
  intros H. unfold hasKeyword. rewrite H. apply bool_decide_eq_false.
  by intros [? ?].
Qed.

Lemma hasKeyword_true (deck : Deck) (name : string) :
  hasKeyword deck name = true ↔ is_Some (deck !! name).
Proof. unfold hasKeyword. apply bool_decide_eq_true. Qed.

Lemma hasKeyword_false (deck : Deck) (name : string) :
  hasKeyword deck name = false ↔ deck !! name = None.
Proof.
  unfold hasKeyword. rewrite bool_decide_eq_false.
  by rewrite eq_None_not_Some.
Qed.

Lemma hasKeyword_insert_ne (deck : Deck) (name other : string) (kw : DeckKeyword) :
  other ≠ name → hasKeyword (<[other := kw]> deck) name = hasKeyword deck name.
Proof. intros Hne. unfold hasKeyword. by rewrite lookup_insert_ne. Qed.

Lemma hasKeyword_delete_ne (deck : Deck) (name other : string) :
  other ≠ name → hasKeyword (delete other deck) name = hasKeyword deck name.
Proof. intros Hne. unfold hasKeyword. by rewrite lookup_delete_ne. Qed.

Lemma getKeyword_insert_ne (deck : Deck) (name other : string) (kw : DeckKeyword) :
  other ≠ name → getKeyword (<[other := kw]> deck) name = getKeyword deck name.
Proof. intros Hne. unfold getKeyword. by rewrite lookup_insert_ne. Qed.

Lemma getKeyword_delete_ne (deck : Deck) (name other : string) :
  other ≠ name → getKeyword (delete other deck) name = getKeyword deck name.
Proof. intros Hne. unfold getKeyword. by rewrite lookup_delete_ne. Qed.

Lemma keyword_SIDoubleData_insert_ne (deck : Deck) (name other : string)
    (kw : DeckKeyword) :
  other ≠ name →
  keyword_SIDoubleData (<[other := kw]> deck) name = keyword_SIDoubleData deck name.
Proof. intros Hne. unfold keyword_SIDoubleData. by rewrite getKeyword_insert_ne. Qed.

Lemma keyword_SIDoubleData_delete_ne (deck : Deck) (name other : string) :
  other ≠ name →
  keyword_SIDoubleData (delete other deck) name = keyword_SIDoubleData deck name.
Proof. intros Hne. unfold keyword_SIDoubleData. by rewrite getKeyword_delete_ne. Qed.

(** A keyword whose data can be read is a keyword of the deck. *)
Lemma keyword_SIDoubleData_present (deck : Deck) (name : string) (data : list double) :
  keyword_SIDoubleData deck name = Returns data → hasKeyword deck name = true.
Proof.
  unfold keyword_SIDoubleData, getKeyword. intros H.
  destruct (deck !! name) as [kw|] eqn:Hkw; [|done].
  by eapply hasKeyword_Some.
Qed.

(** Reading a keyword's data fails in one way only. *)
Lemma keyword_SIDoubleData_Throws (deck : Deck) (name : string) (e : exception) :
  keyword_SIDoubleData deck name = Throws e → e = deck_error.
Proof.
  unfold keyword_SIDoubleData, getKeyword, getSIDoubleData, getRecord, getItem,
    at_index.
  destruct (deck !! name) as [kw|]; simpl; [|by intros [= <-]].
  destruct (kw !! 0%nat) as [rec|]; simpl; [|by intros [= <-]].
  destruct (rec !! 0%nat) as [[data|data]|]; simpl; by intros [= <-].
Qed.

(** Reading the deck never runs into undefined behaviour. *)
Lemma keyword_SIDoubleData_defined (deck : Deck) (name : string) :
  keyword_SIDoubleData deck name ≠ Undefined.
Proof.
  unfold keyword_SIDoubleData, getKeyword, getSIDoubleData, getRecord, getItem,
    at_index.
  destruct (deck !! name) as [kw|]; simpl; [|done].
  destruct (kw !! 0%nat) as [rec|]; simpl; [|done].
  by destruct (rec !! 0%nat) as [[data|data]|].
Qed.

(** ** The constructors *)

Section Properties.
Context `{GL : GridLibrary}.

Lemma constructed_Some (ug : UnstructuredGrid) (what : string) :
  constructed (Some ug) what = Returns {| ug_ := Some ug |}.
Proof. reflexivity. Qed.

Lemma constructed_None (what : string) :
  constructed None what = Throws (runtime_error what).
Proof. reflexivity. Qed.

(** What a constructor's last step returns always holds a grid. *)
Lemma constructed_Returns (ug : option UnstructuredGrid) (what : string)
    (gm : GridManager) :
  constructed ug what = Returns gm → ∃ g, ug = Some g ∧ c_grid gm = Some g.
Proof.
  destruct ug as [g|]; simpl; [|done].
  intros [= <-]. by exists g.
Qed.

(** *** Dispatch on a deck *)

Lemma GridManager_deck_cornerpoint (deck : Deck) :
  is_Some (deck !! "ZCORN") → is_Some (deck !! "COORD") →
  GridManager_deck deck = initFromDeckCornerpoint deck.
Proof.
  intros Hz Hc. unfold GridManager_deck.
  apply hasKeyword_true in Hz, Hc. by rewrite Hz, Hc.
Qed.

Lemma not_both_ZCORN_COORD (deck : Deck) :
  ¬ (is_Some (deck !! "ZCORN") ∧ is_Some (deck !! "COORD")) →
  hasKeyword deck "ZCORN" && hasKeyword deck "COORD" = false.
Proof.
  intros Hno. apply not_true_is_false. intros [H1 H2]%andb_true_iff.
  apply hasKeyword_true in H1, H2. by destruct Hno.
Qed.

Lemma GridManager_deck_tensorgrid (deck : Deck) :
  ¬ (is_Some (deck !! "ZCORN") ∧ is_Some (deck !! "COORD")) →
  is_Some (deck !! "DXV") → is_Some (deck !! "DYV") → is_Some (deck !! "DZV") →
  GridManager_deck deck = pure (initFromDeckTensorgrid deck).
Proof.
  intros Hno Hx Hy Hz. unfold GridManager_deck.
  rewrite (not_both_ZCORN_COORD _ Hno).
  apply hasKeyword_true in Hx, Hy, Hz. by rewrite Hx, Hy, Hz.
Qed.

Lemma GridManager_deck_neither (deck : Deck) (h : heap) :
  ¬ (is_Some (deck !! "ZCORN") ∧ is_Some (deck !! "COORD")) →
  ¬ (is_Some (deck !! "DXV") ∧ is_Some (deck !! "DYV") ∧ is_Some (deck !! "DZV")) →
  GridManager_deck deck h =
    (Throws (runtime_error
       "Could not initialize grid from deck. Need either ZCORN + COORD or DXV + DYV + DZV keywords."),
     h).
Proof.
  intros Hno1 Hno2. unfold GridManager_deck.
  rewrite (not_both_ZCORN_COORD _ Hno1).
  destruct (hasKeyword deck "DXV" && hasKeyword deck "DYV" && hasKeyword deck "DZV")
    eqn:Hxyz; [|done].
  apply andb_true_iff in Hxyz as [Hxy H3].
  apply andb_true_iff in Hxy as [H1 H2].
  apply hasKeyword_true in H1, H2, H3. by destruct Hno2.
Qed.

(** C1. Dispatch on a deck is first-match-wins in a fixed order: with both
    ZCORN and COORD the corner-point path is taken (whatever else the deck
    holds, DXV, DYV and DZV included); otherwise, with all of DXV, DYV and
    DZV, the tensor-grid path is taken; otherwise construction fails with
    the error "Could not initialize grid from deck. Need either ZCORN +
    COORD or DXV + DYV + DZV keywords.". *)
Theorem C1_deck_dispatch_first_match (deck : Deck) :
  (is_Some (deck !! "ZCORN") → is_Some (deck !! "COORD") →
   GridManager_deck deck = initFromDeckCornerpoint deck) ∧
  (¬ (is_Some (deck !! "ZCORN") ∧ is_Some (deck !! "COORD")) →
   is_Some (deck !! "DXV") → is_Some (deck !! "DYV") → is_Some (deck !! "DZV") →
   GridManager_deck deck = pure (initFromDeckTensorgrid deck)) ∧
  (¬ (is_Some (deck !! "ZCORN") ∧ is_Some (deck !! "COORD")) →
   ¬ (is_Some (deck !! "DXV") ∧ is_Some (deck !! "DYV") ∧ is_Some (deck !! "DZV")) →
   ∀ h : heap,
     GridManager_deck deck h =
     (Throws (runtime_error
        "Could not initialize grid from deck. Need either ZCORN + COORD or DXV + DYV + DZV keywords."),
      h)).
Proof.
  split; [|split].
  - apply GridManager_deck_cornerpoint.
  - apply GridManager_deck_tensorgrid.
  - intros Hno1 Hno2 h. by apply GridManager_deck_neither.
Qed.

(** *** Which keywords a path reads *)

Lemma logical_dims_ext (deck deck' : Deck) :
  deck !! "DIMENS" = deck' !! "DIMENS" →
  deck !! "SPECGRID" = deck' !! "SPECGRID" →
  logical_dims deck = logical_dims deck'.
Proof.
  intros Hd Hs. unfold logical_dims, hasKeyword, getKeyword.
  by rewrite Hd, Hs.
Qed.

Lemma top_corner_depths_ext (deck deck' : Deck) (x y : list double) :
  deck !! "DEPTHZ" = deck' !! "DEPTHZ" →
  deck !! "TOPS" = deck' !! "TOPS" →
  top_corner_depths deck x y = top_corner_depths deck' x y.
Proof.
  intros Hd Ht.
  unfold top_corner_depths, keyword_SIDoubleData, hasKeyword, getKeyword.
  by rewrite Hd, Ht.
Qed.

(** The tensor-grid path reads the deck through the logical dimensions and
    the keywords DXV, DYV, DZV, DEPTHZ and TOPS only. *)
Lemma initFromDeckTensorgrid_ext (deck deck' : Deck) :
  logical_dims deck = logical_dims deck' →
  deck !! "DXV" = deck' !! "DXV" →
  deck !! "DYV" = deck' !! "DYV" →
  deck !! "DZV" = deck' !! "DZV" →
  (∀ x y, top_corner_depths deck x y = top_corner_depths deck' x y) →
  initFromDeckTensorgrid deck = initFromDeckTensorgrid deck'.
Proof.
  intros Hdims Hx Hy Hz Htop.
  unfold initFromDeckTensorgrid, keyword_SIDoubleData, getKeyword.
  rewrite Hdims, Hx, Hy, Hz.
  destruct (logical_dims deck') as [[[nx ny] nz]| |]; simpl; try done.
  destruct (deck' !! "DXV") as [kx|]; simpl; [|done].
  destruct (getSIDoubleData kx) as [dxv| |]; simpl; try done.
  destruct (deck' !! "DYV") as [ky|]; simpl; [|done].
  destruct (getSIDoubleData ky) as [dyv| |]; simpl; try done.
  destruct (deck' !! "DZV") as [kz|]; simpl; [|done].
  destruct (getSIDoubleData kz) as [dzv| |]; simpl; try done.
  by rewrite Htop.
Qed.

(** The tensor-grid path resolves the logical dimensions first: when that
    fails, the path fails the same way. *)
Lemma initFromDeckTensorgrid_dims_error (deck : Deck) (e : exception) :
  logical_dims deck = Throws e → initFromDeckTensorgrid deck = Throws e.
Proof. intros H. unfold initFromDeckTensorgrid. by rewrite H. Qed.

(** The tensor-grid path once the three counts agree with the logical
    dimensions: the top depths are worked out and the builder is called on
    the coordinates of the three delta vectors. *)
Lemma initFromDeckTensorgrid_checked (deck : Deck) (nx ny nz : Z)
    (dxv dyv dzv : list double) :
  logical_dims deck = Returns (nx, ny, nz) →
  keyword_SIDoubleData deck "DXV" = Returns dxv →
  keyword_SIDoubleData deck "DYV" = Returns dyv →
  keyword_SIDoubleData deck "DZV" = Returns dzv →
  nx = int_of_size (length dxv) →
  ny = int_of_size (length dyv) →
  nz = int_of_size (length dzv) →
  initFromDeckTensorgrid deck =
    (top_depths ← top_corner_depths deck (coordsFromDeltas dxv) (coordsFromDeltas dyv);
     constructed
       (create_grid_tensor3d nx ny nz (coordsFromDeltas dxv) (coordsFromDeltas dyv)
          (coordsFromDeltas dzv) top_depths)
       "Failed to construct grid.").
Proof.
  intros Hdims Hx Hy Hz -> -> ->.
  unfold initFromDeckTensorgrid. rewrite Hdims, Hx, Hy, Hz. simpl.
  by rewrite !bool_decide_eq_false_2 by (intros Hne; by apply Hne).
Qed.

(** *** The corner-point path, step by step *)

Lemma createGrdecl_steps (deck : Deck) (h : heap) (zcorn' coord' : list double)
    (actnum' : option (list Z)) (dims' : Z * Z * Z) :
  keyword_SIDoubleData deck "ZCORN" = Returns zcorn' →
  keyword_SIDoubleData deck "COORD" = Returns coord' →
  actnum_pointer deck = Returns actnum' →
  logical_dims deck = Returns dims' →
  createGrdecl deck h =
    match mapaxes_pointer deck h with
    | (Returns p, h') =>
        (Returns {| dims := dims'; coord := coord'; zcorn := zcorn';
                    actnum := actnum'; mapaxes := p |}, h')
    | (Throws e, h') => (Throws e, h')
    | (Undefined, h') => (Undefined, h')
    end.
Proof.
  intros Hz Hc Ha Hd. unfold createGrdecl, mbind, M_bind, pure.
  by rewrite Hz, Hc, Ha, Hd.
Qed.

(** What [createGrdecl] returns holds the data it read from the deck. *)
Lemma createGrdecl_Returns (deck : Deck) (h h' : heap) (g : grdecl) :
  createGrdecl deck h = (Returns g, h') →
  keyword_SIDoubleData deck "ZCORN" = Returns (zcorn g) ∧
  keyword_SIDoubleData deck "COORD" = Returns (coord g) ∧
  actnum_pointer deck = Returns (actnum g) ∧
  logical_dims deck = Returns (dims g) ∧
  mapaxes_pointer deck h = (Returns (mapaxes g), h').
Proof.
  unfold createGrdecl, mbind, M_bind, pure.
  destruct (keyword_SIDoubleData deck "ZCORN") as [zcorn'| |]; try done.
  destruct (keyword_SIDoubleData deck "COORD") as [coord'| |]; try done.
  destruct (actnum_pointer deck) as [actnum'| |]; try done.
  destruct (logical_dims deck) as [dims'| |]; try done.
  destruct (mapaxes_pointer deck h) as [[p| |] h1]; try done.
  unfold mret, M_ret. by intros [= <- <-].
Qed.

(** When the dimensions cannot be resolved, [createGrdecl] fails the same
    way, provided the reads before it succeed. *)
Lemma createGrdecl_dims_error (deck : Deck) (h : heap) (zcorn' coord' : list double)
    (actnum' : option (list Z)) (e : exception) :
  keyword_SIDoubleData deck "ZCORN" = Returns zcorn' →
  keyword_SIDoubleData deck "COORD" = Returns coord' →
  actnum_pointer deck = Returns actnum' →
  logical_dims deck = Throws e →
  createGrdecl deck h = (Throws e, h).
Proof.
  intros Hz Hc Ha Hd. unfold createGrdecl, mbind, M_bind, pure.
  by rewrite Hz, Hc, Ha, Hd.
Qed.

Lemma initFromDeckCornerpoint_createGrdecl_error (deck : Deck) (h h' : heap)
    (e : exception) :
  createGrdecl deck h = (Throws e, h') →
  initFromDeckCornerpoint deck h = (Throws e, h').
Proof. intros H. unfold initFromDeckCornerpoint, mbind, M_bind. by rewrite H. Qed.

(** Once the record is filled in, the corner-point path calls the builder on
    it, with tolerance 0.0 and the heap [createGrdecl] left, and keeps the
    heap the builder leaves. *)
Lemma initFromDeckCornerpoint_builder (deck : Deck) (h h1 : heap) (g : grdecl) :
  createGrdecl deck h = (Returns g, h1) →
  initFromDeckCornerpoint deck h =
    (constructed (create_grid_cornerpoint g d0 h1).1 "Failed to construct grid.",
     (create_grid_cornerpoint g d0 h1).2).
Proof.
  intros H. unfold initFromDeckCornerpoint, mbind, M_bind. rewrite H.
  unfold cornerpoint_builder, pure.
  by destruct (create_grid_cornerpoint g d0 h1) as [ug h2].
Qed.

(** *** Logical dimensions *)

Lemma logical_dims_DIMENS (deck : Deck) (kw : DeckKeyword) :
  deck !! "DIMENS" = Some kw →
  logical_dims deck =
    (nx ← record0_int kw 0; ny ← record0_int kw 1; nz ← record0_int kw 2;
     Returns (nx, ny, nz)).
Proof.
  intros H. unfold logical_dims, getKeyword.
  by rewrite (hasKeyword_Some _ _ _ H), H.
Qed.

Lemma logical_dims_SPECGRID (deck : Deck) (kw : DeckKeyword) :
  deck !! "DIMENS" = None → deck !! "SPECGRID" = Some kw →
  logical_dims deck =
    (nx ← record0_int kw 0; ny ← record0_int kw 1; nz ← record0_int kw 2;
     Returns (nx, ny, nz)).
Proof.
  intros Hd Hs. unfold logical_dims, getKeyword.
  by rewrite (hasKeyword_None _ _ Hd), (hasKeyword_Some _ _ _ Hs), Hs.
Qed.

Lemma logical_dims_neither (deck : Deck) :
  deck !! "DIMENS" = None → deck !! "SPECGRID" = None →
  logical_dims deck =
    Throws (runtime_error "Deck must have either DIMENS or SPECGRID.").
Proof.
  intros Hd Hs. unfold logical_dims.
  by rewrite (hasKeyword_None _ _ Hd), (hasKeyword_None _ _ Hs).
Qed.

Lemma record0_int_Throws (kw : DeckKeyword) (i : nat) (e : exception) :
  record0_int kw i = Throws e → e = deck_error.
Proof.
  unfold record0_int, getRecord, getItem, getInt, at_index.
  destruct (kw !! 0%nat) as [rec|]; simpl; [|by intros [= <-]].
  destruct (rec !! i) as [[data|data]|]; simpl; try by intros [= <-].
  destruct (data !! 0%nat); simpl; by intros [= <-].
Qed.

(** Resolving the dimensions fails with the interface's exception or with
    the error about DIMENS and SPECGRID. *)
Lemma logical_dims_Throws (deck : Deck) (e : exception) :
  logical_dims deck = Throws e →
  e = deck_error ∨
  e = runtime_error "Deck must have either DIMENS or SPECGRID.".
Proof.
  assert (Hkw : ∀ (kw : DeckKeyword),
    (nx ← record0_int kw 0; ny ← record0_int kw 1; nz ← record0_int kw 2;
     Returns (nx, ny, nz)) = Throws e → e = deck_error).
  { intros kw.
    destruct (record0_int kw 0) as [nx|e0|] eqn:H0; simpl; try done;
      [|intros [= <-]; by eapply record0_int_Throws].
    destruct (record0_int kw 1) as [ny|e1|] eqn:H1; simpl; try done;
      [|intros [= <-]; by eapply record0_int_Throws].
    destruct (record0_int kw 2) as [nz|e2|] eqn:H2; simpl; try done.
    intros [= <-]; by eapply record0_int_Throws. }
  unfold logical_dims, getKeyword.
  destruct (hasKeyword deck "DIMENS").
  - destruct (deck !! "DIMENS") as [kw|]; simpl; [|intros [= <-]; by left].
    intros H. left. by eapply Hkw.
  - destruct (hasKeyword deck "SPECGRID").
    + destruct (deck !! "SPECGRID") as [kw|]; simpl; [|intros [= <-]; by left].
      intros H. left. by eapply Hkw.
    + intros [= <-]. by right.
Qed.

(** C3. On both deck-driven paths the logical dimensions (nx, ny, nz) are
    the first values of the first three items of the first record of DIMENS
    when the deck has it, else of SPECGRID when the deck has that; with
    neither keyword, construction fails with "Deck must have either DIMENS or
    SPECGRID.". The corner-point record carries exactly these dimensions,
    and the tensor-grid path reads DIMENS and SPECGRID through them only. *)
Theorem C3_logical_dimensions (deck : Deck) :
  (∀ nx ny nz rx ry rz items records,
     deck !! "DIMENS" =
       Some ((DeckIntItem (nx :: rx) :: DeckIntItem (ny :: ry) ::
              DeckIntItem (nz :: rz) :: items) :: records) →
     logical_dims deck = Returns (nx, ny, nz)) ∧
  (∀ nx ny nz rx ry rz items records,
     deck !! "DIMENS" = None →
     deck !! "SPECGRID" =
       Some ((DeckIntItem (nx :: rx) :: DeckIntItem (ny :: ry) ::
              DeckIntItem (nz :: rz) :: items) :: records) →
     logical_dims deck = Returns (nx, ny, nz)) ∧
  (deck !! "DIMENS" = None → deck !! "SPECGRID" = None →
     logical_dims deck =
       Throws (runtime_error "Deck must have either DIMENS or SPECGRID.") ∧
     initFromDeckTensorgrid deck =
       Throws (runtime_error "Deck must have either DIMENS or SPECGRID.") ∧
     ∀ h zcorn' coord' actnum',
       keyword_SIDoubleData deck "ZCORN" = Returns zcorn' →
       keyword_SIDoubleData deck "COORD" = Returns coord' →
       actnum_pointer deck = Returns actnum' →
       initFromDeckCornerpoint deck h =
         (Throws (runtime_error "Deck must have either DIMENS or SPECGRID."), h)) ∧
  (∀ h zcorn' coord' actnum' dims',
     keyword_SIDoubleData deck "ZCORN" = Returns zcorn' →
     keyword_SIDoubleData deck "COORD" = Returns coord' →
     actnum_pointer deck = Returns actnum' →
     logical_dims deck = Returns dims' →
     deck !! "MAPAXES" = None →
     createGrdecl deck h =
       (Returns {| dims := dims'; coord := coord'; zcorn := zcorn';
                   actnum := actnum'; mapaxes := mapaxes_NULL |}, h)) ∧
  (∀ h h' g, createGrdecl deck h = (Returns g, h') →
     logical_dims deck = Returns (dims g)) ∧
  (∀ deck' : Deck,
     logical_dims deck' = logical_dims deck →
     (∀ name, name ≠ "DIMENS" → name ≠ "SPECGRID" → deck' !! name = deck !! name) →
     initFromDeckTensorgrid deck' = initFromDeckTensorgrid deck).
Proof.
  split; [|split; [|split; [|split; [|split]]]].
  - intros nx ny nz rx ry rz items records H.
    rewrite (logical_dims_DIMENS _ _ H).
    reflexivity.
  - intros nx ny nz rx ry rz items records Hd H.
    rewrite (logical_dims_SPECGRID _ _ Hd H).
    reflexivity.
  - intros Hd Hs. split; [|split].
    + by apply logical_dims_neither.
    + by apply initFromDeckTensorgrid_dims_error, logical_dims_neither.
    + intros h zcorn' coord' actnum' Hz Hc Ha.
      apply initFromDeckCornerpoint_createGrdecl_error.
      eapply createGrdecl_dims_error; eauto using logical_dims_neither.
  - intros h zcorn' coord' actnum' dims' Hz Hc Ha Hdims Hm.
    rewrite (createGrdecl_steps _ _ _ _ _ _ Hz Hc Ha Hdims).
    unfold mapaxes_pointer. by rewrite (hasKeyword_None _ _ Hm).
  - intros h h' g H. by apply createGrdecl_Returns in H as (_ & _ & _ & ? & _).
  - intros deck' Hdims Hsame.
    apply initFromDeckTensorgrid_ext; [done|by apply Hsame..|].
    intros x y. by apply top_corner_depths_ext; apply Hsame.
Qed.

(** *** Dimension checks of the tensor-grid path *)

(** The errors the top depths can end in: none of them is about a number of
    data points. *)
Lemma top_corner_depths_Throws (deck : Deck) (x y : list double) (e : exception) :
  top_corner_depths deck x y = Throws e →
  e = deck_error ∨
  (∃ n : nat, e = runtime_error ("Incorrect size of DEPTHZ: " +:+ pretty n)) ∨
  e = runtime_error
        "We do not support nonuniform TOPS, please use ZCORN/COORDS instead.".
Proof.
  unfold top_corner_depths, keyword_SIDoubleData, getKeyword, getSIDoubleData,
    getRecord, getItem, at_index, element, OPM_THROW.
  destruct (hasKeyword deck "DEPTHZ").
  - destruct (deck !! "DEPTHZ") as [kw|]; simpl; [|intros [= <-]; by left].
    destruct (kw !! 0%nat) as [rec|]; simpl; [|intros [= <-]; by left].
    destruct (rec !! 0%nat) as [[data|data]|]; simpl;
      try (intros [= <-]; by left).
    case_bool_decide; [|done].
    intros [= <-]. right; left. by eexists.
  - destruct (hasKeyword deck "TOPS"); [|done].
    destruct (deck !! "TOPS") as [kw|]; simpl; [|intros [= <-]; by left].
    destruct (kw !! 0%nat) as [rec|]; simpl; [|intros [= <-]; by left].
    destruct (rec !! 0%nat) as [[data|data]|]; simpl;
      try (intros [= <-]; by left).
    destruct (data !! 0%nat) as [t0|]; simpl; [|done].
    case_bool_decide; [|done].
    intros [= <-]. by right; right.
Qed.

(** C6. On the tensor-grid path, construction fails whenever the logical
    dimensions disagree with the lengths of the delta vectors: the first of
    nx <> length(DXV), ny <> length(DYV), nz <> length(DZV) that holds raises
    the error naming that keyword; when all three agree, none of the three
    errors is raised and the path goes on to the top depths and the builder.
    The lengths are compared as [int]s, so they are taken to fit one. *)
Theorem C6_tensor_dimension_mismatch (deck : Deck) (nx ny nz : Z)
    (dxv dyv dzv : list double) :
  logical_dims deck = Returns (nx, ny, nz) →
  keyword_SIDoubleData deck "DXV" = Returns dxv →
  keyword_SIDoubleData deck "DYV" = Returns dyv →
  keyword_SIDoubleData deck "DZV" = Returns dzv →
  Z.of_nat (length dxv) ≤ INT_MAX →
  Z.of_nat (length dyv) ≤ INT_MAX →
  Z.of_nat (length dzv) ≤ INT_MAX →
  (nx ≠ Z.of_nat (length dxv) →
   initFromDeckTensorgrid deck = Throws (runtime_error "Number of DXV data points do not match DIMENS or SPECGRID.")) ∧
  (nx = Z.of_nat (length dxv) → ny ≠ Z.of_nat (length dyv) →
   initFromDeckTensorgrid deck = Throws (runtime_error "Number of DYV data points do not match DIMENS or SPECGRID.")) ∧
  (nx = Z.of_nat (length dxv) → ny = Z.of_nat (length dyv) →
   nz ≠ Z.of_nat (length dzv) →
   initFromDeckTensorgrid deck = Throws (runtime_error "Number of DZV data points do not match DIMENS or SPECGRID.")) ∧
  (nx = Z.of_nat (length dxv) → ny = Z.of_nat (length dyv) →
   nz = Z.of_nat (length dzv) →
   initFromDeckTensorgrid deck =
     (top_depths ← top_corner_depths deck (coordsFromDeltas dxv) (coordsFromDeltas dyv);
      constructed
        (create_grid_tensor3d nx ny nz (coordsFromDeltas dxv) (coordsFromDeltas dyv)
           (coordsFromDeltas dzv) top_depths)
        "Failed to construct grid.") ∧
   ∀ keyword : string,
     initFromDeckTensorgrid deck ≠
     Throws (runtime_error
       ("Number of " +:+ keyword +:+ " data points do not match DIMENS or SPECGRID."))).
Proof.
  intros Hdims Hx Hy Hz Hfx Hfy Hfz.
  assert (Hrun : initFromDeckTensorgrid deck =
    if bool_decide (nx ≠ Z.of_nat (length dxv)) then
      Throws (runtime_error "Number of DXV data points do not match DIMENS or SPECGRID.")
    else if bool_decide (ny ≠ Z.of_nat (length dyv)) then
      Throws (runtime_error "Number of DYV data points do not match DIMENS or SPECGRID.")
    else if bool_decide (nz ≠ Z.of_nat (length dzv)) then
      Throws (runtime_error "Number of DZV data points do not match DIMENS or SPECGRID.")
    else
      top_depths ← top_corner_depths deck (coordsFromDeltas dxv) (coordsFromDeltas dyv);
      constructed
        (create_grid_tensor3d (Z.of_nat (length dxv)) (Z.of_nat (length dyv))
           (Z.of_nat (length dzv)) (coordsFromDeltas dxv) (coordsFromDeltas dyv)
           (coordsFromDeltas dzv) top_depths)
        "Failed to construct grid.").
  { unfold initFromDeckTensorgrid. rewrite Hdims, Hx, Hy, Hz. simpl.
    by rewrite !int_of_size_small by done. }
  rewrite Hrun. split; [|split; [|split]].
  - intros Hne. by rewrite bool_decide_eq_true_2.
  - intros Heq Hne.
    by rewrite bool_decide_eq_false_2, bool_decide_eq_true_2 by (done || by intros []).
  - intros Heqx Heqy Hne.
    by rewrite !bool_decide_eq_false_2, bool_decide_eq_true_2 by (done || by intros []).
  - intros -> -> ->.
    rewrite !bool_decide_eq_false_2 by (by intros []).
    split; [done|].
    intros keyword.
    destruct (top_corner_depths _ _ _) as [td|e|] eqn:Htd; simpl; [| |done].
    + destruct (create_grid_tensor3d _ _ _ _ _ _ _); simpl; done.
    + apply top_corner_depths_Throws in Htd as [->|[[n ->]| ->]]; done.
Qed.

(** *** Top depths *)

Lemma count_le_length (v : list double) (value : double) :
  (count v value ≤ length v)%nat.
Proof. unfold count. apply length_filter. Qed.

(** [std::count] finds as many elements as there are exactly when every
    element compares equal to the value. *)
Lemma count_all (v : list double) (value : double) :
  count v value = length v ↔ ∀ e, e ∈ v → deqb e value = true.
Proof.
  unfold count. induction v as [|a v IH]; simpl.
  - split; [|done]. intros _ e He. by apply elem_of_nil in He.
  - destruct (decide (deqb a value = true)) as [Ha|Ha].
    + rewrite filter_cons_True by done. simpl. split.
      * intros [= Hlen]. pose proof (proj1 IH Hlen) as Hall.
        intros e [->|He]%elem_of_cons; auto.
      * intros Hall. f_equal. apply (proj2 IH). intros e He. apply Hall. by right.
    + rewrite filter_cons_False by done. split.
      * intros Hlen.
        pose proof (length_filter (λ e, deqb e value = true) v). lia.
      * intros Hall. destruct Ha. apply Hall. by left.
Qed.

(** The TOPS branch: DEPTHZ absent, TOPS read, its first element taken. *)
Lemma top_corner_depths_TOPS (deck : Deck) (x y : list double) (t0 : double)
    (rest : list double) :
  deck !! "DEPTHZ" = None →
  keyword_SIDoubleData deck "TOPS" = Returns (t0 :: rest) →
  top_corner_depths deck x y =
    if bool_decide (Z.of_nat (count (t0 :: rest) t0) ≠
                    int_of_size (length (t0 :: rest)))
    then Throws (runtime_error
           "We do not support nonuniform TOPS, please use ZCORN/COORDS instead.")
    else Returns (Some (replicate (size_mul (length x) (length y)) t0)).
Proof.
  intros Hd Ht. unfold top_corner_depths.
  rewrite (hasKeyword_None _ _ Hd), (keyword_SIDoubleData_present _ _ _ Ht), Ht.
  reflexivity.
Qed.

(** C7. On the tensor-grid path with DEPTHZ absent and TOPS present (and the
    dimension checks passed): if every TOPS value equals the first one, the
    top-depth field handed to the builder is that value at each of the
    (nx+1)*(ny+1) areal nodes; if some TOPS value differs from the first,
    construction fails with the error that nonuniform TOPS is not supported.
    Equality of values is [==] on doubles. *)
Theorem C7_uniform_TOPS_broadcast (deck : Deck) (nx ny nz : Z)
    (dxv dyv dzv : list double) (t0 : double) (rest : list double) :
  logical_dims deck = Returns (nx, ny, nz) →
  keyword_SIDoubleData deck "DXV" = Returns dxv →
  keyword_SIDoubleData deck "DYV" = Returns dyv →
  keyword_SIDoubleData deck "DZV" = Returns dzv →
  nx = Z.of_nat (length dxv) → ny = Z.of_nat (length dyv) →
  nz = Z.of_nat (length dzv) →
  nx ≤ INT_MAX → ny ≤ INT_MAX → nz ≤ INT_MAX →
  deck !! "DEPTHZ" = None →
  keyword_SIDoubleData deck "TOPS" = Returns (t0 :: rest) →
  Z.of_nat (length (t0 :: rest)) ≤ INT_MAX →
  ((∀ t, t ∈ t0 :: rest → deqb t t0 = true) →
   initFromDeckTensorgrid deck =
     constructed
       (create_grid_tensor3d nx ny nz (coordsFromDeltas dxv) (coordsFromDeltas dyv)
          (coordsFromDeltas dzv)
          (Some (replicate (Z.to_nat ((nx + 1) * (ny + 1))) t0)))
       "Failed to construct grid.") ∧
  ((∃ t, t ∈ t0 :: rest ∧ deqb t t0 = false) →
   initFromDeckTensorgrid deck =
     Throws (runtime_error
       "We do not support nonuniform TOPS, please use ZCORN/COORDS instead.")).
Proof.
  intros Hdims Hx Hy Hz Hnx Hny Hnz Hfx Hfy Hfz Hd Ht Hft.
  rewrite (initFromDeckTensorgrid_checked _ _ _ _ _ _ _ Hdims Hx Hy Hz)
    by (subst; by rewrite int_of_size_small).
  rewrite (top_corner_depths_TOPS _ _ _ _ _ Hd Ht).
  rewrite (int_of_size_small _ Hft).
  split.
  - intros Hall. apply (proj2 (count_all _ _)) in Hall.
    rewrite bool_decide_eq_false_2 by (intros Hne; apply Hne; by rewrite Hall).
    simpl. rewrite !length_coordsFromDeltas.
    rewrite size_mul_small by (unfold INT_MAX in *; lia).
    do 4 f_equal. subst nx ny. lia.
  - intros (t & Hin & Hneq).
    rewrite bool_decide_eq_true_2; [done|].
    intros Heq. apply Nat2Z.inj in Heq.
    pose proof (proj1 (count_all _ _) Heq t Hin) as Htrue.
    rewrite Htrue in Hneq. done.
Qed.

(** The DEPTHZ branch: TOPS is not looked at. *)
Lemma top_corner_depths_DEPTHZ (deck : Deck) (x y : list double) :
  is_Some (deck !! "DEPTHZ") →
  top_corner_depths deck x y =
    (depthz ← keyword_SIDoubleData deck "DEPTHZ";
     if bool_decide (length depthz ≠ size_mul (length x) (length y))
     then Throws (runtime_error ("Incorrect size of DEPTHZ: " +:+ pretty (length depthz)))
     else Returns (Some depthz)).
Proof.
  intros H. apply hasKeyword_true in H. unfold top_corner_depths. by rewrite H.
Qed.

(** C9. On the tensor-grid path DEPTHZ takes precedence over TOPS: for a
    deck with DEPTHZ, the outcome is the same whatever the TOPS keyword holds
    and whether it is there at all (its values are never examined), the
    top-depth field, when there is one, is the DEPTHZ data, and the error
    about nonuniform TOPS is never raised. *)
Theorem C9_DEPTHZ_precedes_TOPS (deck : Deck) :
  is_Some (deck !! "DEPTHZ") →
  (∀ tops : DeckKeyword,
     initFromDeckTensorgrid (<["TOPS" := tops]> deck) = initFromDeckTensorgrid deck) ∧
  initFromDeckTensorgrid (delete "TOPS" deck) = initFromDeckTensorgrid deck ∧
  (∀ x y top_depths,
     top_corner_depths deck x y = Returns top_depths →
     ∃ depthz, keyword_SIDoubleData deck "DEPTHZ" = Returns depthz ∧
               top_depths = Some depthz) ∧
  (∀ nx ny nz dxv dyv dzv depthz,
     logical_dims deck = Returns (nx, ny, nz) →
     keyword_SIDoubleData deck "DXV" = Returns dxv →
     keyword_SIDoubleData deck "DYV" = Returns dyv →
     keyword_SIDoubleData deck "DZV" = Returns dzv →
     nx = Z.of_nat (length dxv) → ny = Z.of_nat (length dyv) →
     nz = Z.of_nat (length dzv) →
     nx ≤ INT_MAX → ny ≤ INT_MAX → nz ≤ INT_MAX →
     keyword_SIDoubleData deck "DEPTHZ" = Returns depthz →
     Z.of_nat (length depthz) = (nx + 1) * (ny + 1) →
     initFromDeckTensorgrid deck =
       constructed
         (create_grid_tensor3d nx ny nz (coordsFromDeltas dxv) (coordsFromDeltas dyv)
            (coordsFromDeltas dzv) (Some depthz))
         "Failed to construct grid.") ∧
  initFromDeckTensorgrid deck ≠
    Throws (runtime_error
      "We do not support nonuniform TOPS, please use ZCORN/COORDS instead.").
Proof.
  intros Hd.
  assert (Hins : ∀ tops x y,
    top_corner_depths (<["TOPS" := tops]> deck) x y = top_corner_depths deck x y).
  { intros tops x y. rewrite !top_corner_depths_DEPTHZ.
    - by rewrite keyword_SIDoubleData_insert_ne.
    - done.
    - by rewrite lookup_insert_ne. }
  assert (Hdel : ∀ x y,
    top_corner_depths (delete "TOPS" deck) x y = top_corner_depths deck x y).
  { intros x y. rewrite !top_corner_depths_DEPTHZ.
    - by rewrite keyword_SIDoubleData_delete_ne.
    - done.
    - by rewrite lookup_delete_ne. }
  split; [|split; [|split; [|split]]].
  - intros tops. apply initFromDeckTensorgrid_ext; try (by rewrite lookup_insert_ne).
    + apply logical_dims_ext; by rewrite lookup_insert_ne.
    + apply Hins.
  - apply initFromDeckTensorgrid_ext; try (by rewrite lookup_delete_ne).
    + apply logical_dims_ext; by rewrite lookup_delete_ne.
    + apply Hdel.
  - intros x y top_depths. rewrite top_corner_depths_DEPTHZ by done.
    destruct (keyword_SIDoubleData deck "DEPTHZ") as [depthz| |]; simpl; try done.
    case_bool_decide; [done|]. intros [= <-]. by exists depthz.
  - intros nx ny nz dxv dyv dzv depthz Hdims Hx Hy Hz Hnx Hny Hnz Hfx Hfy Hfz
      Hdepthz Hlen.
    rewrite (initFromDeckTensorgrid_checked _ _ _ _ _ _ _ Hdims Hx Hy Hz)
      by (subst; by rewrite int_of_size_small).
    rewrite top_corner_depths_DEPTHZ, Hdepthz by done. simpl.
    rewrite !length_coordsFromDeltas.
    rewrite size_mul_small by (unfold INT_MAX in *; lia).
    rewrite bool_decide_eq_false_2; [done|].
    intros Hne. apply Hne. subst nx ny. lia.
  - unfold initFromDeckTensorgrid.
    destruct (logical_dims deck) as [[[nx ny] nz]|e|] eqn:Hdims; simpl; try done.
    2:{ by apply logical_dims_Throws in Hdims as [->| ->]. }
    destruct (keyword_SIDoubleData deck "DXV") as [dxv|e|] eqn:Hx; simpl; try done.
    2:{ by apply keyword_SIDoubleData_Throws in Hx as ->. }
    destruct (keyword_SIDoubleData deck "DYV") as [dyv|e|] eqn:Hy; simpl; try done.
    2:{ by apply keyword_SIDoubleData_Throws in Hy as ->. }
    destruct (keyword_SIDoubleData deck "DZV") as [dzv|e|] eqn:Hz; simpl; try done.
    2:{ by apply keyword_SIDoubleData_Throws in Hz as ->. }
    repeat (case_bool_decide; [done|]).
    rewrite top_corner_depths_DEPTHZ by done.
    destruct (keyword_SIDoubleData deck "DEPTHZ") as [depthz|e|] eqn:Hdz; simpl;
      try done.
    2:{ by apply keyword_SIDoubleData_Throws in Hdz as ->. }
    case_bool_decide; simpl; [done|].
    destruct (create_grid_tensor3d _ _ _ _ _ _ _); simpl; done.
Qed.

(** *** The MAPAXES buffer *)

(** The loop stores the value of every item it still has to visit, in order,
    and leaves what it stored before. *)
Lemma copy_mapaxes_fills (todo : DeckRecord) :
  ∀ (visited : DeckRecord) (p : positive) (h : heap)
    (block : list (option double)) (values : list double),
    h !! p = Some block →
    length block = length (visited ++ todo) →
    Forall2 (λ item v, getSIDouble item 0 = Returns v) todo values →
    copy_mapaxes (visited ++ todo) p (length visited) (length todo) h =
      (Returns (), <[p := take (length visited) block ++ (Some <$> values)]> h).
Proof.
  induction todo as [|item todo IH]; intros visited p h block values Hp Hlen Hvals.
  - apply Forall2_nil_inv_l in Hvals as ->. simpl.
    rewrite app_nil_r in *. rewrite take_ge by lia.
    by rewrite insert_id.
  - apply Forall2_cons_inv_l in Hvals as (v & values' & Hv & Hvals & ->).
    rewrite length_app in Hlen. simpl in Hlen.
    cbn [copy_mapaxes length]. unfold mbind at 1, M_bind at 1, pure at 1.
    unfold getItem, at_index.
    rewrite (list_lookup_middle visited todo item (length visited) eq_refl).
    cbn [mbind outcome_bind]. rewrite Hv.
    unfold mbind at 1, M_bind at 1, store at 1. rewrite Hp.
    rewrite decide_True by lia.
    replace (visited ++ item :: todo) with ((visited ++ [item]) ++ todo)
      by (by rewrite <- app_assoc).
    replace (S (length visited)) with (length (visited ++ [item]))
      by (rewrite length_app; simpl; lia).
    rewrite (IH (visited ++ [item]) p _ (<[length visited := Some v]> block) values').
    + rewrite insert_insert_eq. f_equal. f_equal.
      rewrite length_app. simpl. rewrite Nat.add_1_r.
      rewrite (take_S_r _ _ (Some v)) by (apply list_lookup_insert_eq; lia).
      rewrite take_insert_ge by lia.
      by rewrite <- app_assoc.
    + apply lookup_insert_eq.
    + rewrite length_insert, !length_app. simpl. lia.
    + done.
Qed.

(** With a MAPAXES record whose items all hold a value, the pointer is a
    block that was not on the heap before, holding exactly these values. *)
Lemma mapaxes_pointer_block (deck : Deck) (h : heap) (keyword : DeckKeyword)
    (record : DeckRecord) (values : list double) :
  deck !! "MAPAXES" = Some keyword → keyword !! 0%nat = Some record →
  Forall2 (λ item v, getSIDouble item 0 = Returns v) record values →
  h !! fresh (dom h) = None ∧
  mapaxes_pointer deck h =
    (Returns (mapaxes_block (fresh (dom h))), <[fresh (dom h) := Some <$> values]> h).
Proof.
  intros Hkw Hrec Hvals.
  split; [apply not_elem_of_dom, is_fresh|].
  unfold mapaxes_pointer. rewrite (hasKeyword_Some _ _ _ Hkw).
  unfold mbind at 1, M_bind at 1, pure at 1, getKeyword, getRecord, at_index.
  rewrite Hkw. cbn [mbind outcome_bind]. rewrite Hrec.
  unfold mbind at 1, M_bind at 1, malloc at 1. cbn zeta.
  unfold mbind at 1, M_bind at 1.
  rewrite (copy_mapaxes_fills record [] (fresh (dom h)) _
             (replicate (length record) None) values).
  - unfold mret, M_ret. simpl. by rewrite insert_insert_eq.
  - apply lookup_insert_eq.
  - by rewrite length_replicate.
  - done.
Qed.

Lemma mapaxes_pointer_NULL (deck : Deck) (h : heap) :
  deck !! "MAPAXES" = None → mapaxes_pointer deck h = (Returns mapaxes_NULL, h).
Proof. intros H. unfold mapaxes_pointer. by rewrite (hasKeyword_None _ _ H). Qed.

(** C8. In [createGrdecl], when the deck has MAPAXES, the [mapaxes] field of
    the record filled in points to a block that was not on the heap before,
    with one cell per item of the first record of the keyword, each holding
    the SI value of its item; the block is still allocated when the record is handed
    to the builder, and the manager does nothing to the heap after that call.
    When the deck has no MAPAXES, [mapaxes] is null, nothing is allocated
    and the builder gets a record without an areal transform. *)
Theorem C8_mapaxes_buffer (deck : Deck) (h : heap) (zcorn' coord' : list double)
    (actnum' : option (list Z)) (dims' : Z * Z * Z) :
  keyword_SIDoubleData deck "ZCORN" = Returns zcorn' →
  keyword_SIDoubleData deck "COORD" = Returns coord' →
  actnum_pointer deck = Returns actnum' →
  logical_dims deck = Returns dims' →
  (∀ (keyword : DeckKeyword) (record : DeckRecord) (values : list double),
     deck !! "MAPAXES" = Some keyword → keyword !! 0%nat = Some record →
     Forall2 (λ item v, getSIDouble item 0 = Returns v) record values →
     ∃ (p : positive) (g : grdecl) (h1 : heap),
       h !! p = None ∧
       h1 = <[p := Some <$> values]> h ∧
       length (Some <$> values) = length record ∧
       g = {| dims := dims'; coord := coord'; zcorn := zcorn'; actnum := actnum';
              mapaxes := mapaxes_block p |} ∧
       createGrdecl deck h = (Returns g, h1) ∧
       initFromDeckCornerpoint deck h =
         (constructed (create_grid_cornerpoint g d0 h1).1 "Failed to construct grid.",
          (create_grid_cornerpoint g d0 h1).2)) ∧
  (deck !! "MAPAXES" = None →
     ∃ g : grdecl,
       g = {| dims := dims'; coord := coord'; zcorn := zcorn'; actnum := actnum';
              mapaxes := mapaxes_NULL |} ∧
       createGrdecl deck h = (Returns g, h) ∧
       initFromDeckCornerpoint deck h =
         (constructed (create_grid_cornerpoint g d0 h).1 "Failed to construct grid.",
          (create_grid_cornerpoint g d0 h).2)).
Proof.
  intros Hz Hc Ha Hd. split.
  - intros keyword record values Hkw Hrec Hvals.
    destruct (mapaxes_pointer_block _ h _ _ _ Hkw Hrec Hvals) as [Hfresh Hptr].
    assert (Hg : createGrdecl deck h =
      (Returns {| dims := dims'; coord := coord'; zcorn := zcorn'; actnum := actnum';
                  mapaxes := mapaxes_block (fresh (dom h)) |},
       <[fresh (dom h) := Some <$> values]> h)).
    { rewrite (createGrdecl_steps _ _ _ _ _ _ Hz Hc Ha Hd). by rewrite Hptr. }
    eexists _, _, _. repeat (split; [reflexivity || eassumption|]).
    split; [|split; [reflexivity|split; [exact Hg|]]].
    + rewrite length_fmap. symmetry. by eapply Forall2_length.
    + by apply initFromDeckCornerpoint_builder.
  - intros Hno.
    assert (Hg : createGrdecl deck h =
      (Returns {| dims := dims'; coord := coord'; zcorn := zcorn'; actnum := actnum';
                  mapaxes := mapaxes_NULL |}, h)).
    { rewrite (createGrdecl_steps _ _ _ _ _ _ Hz Hc Ha Hd).
      by rewrite mapaxes_pointer_NULL. }
    eexists. split; [reflexivity|]. split; [exact Hg|].
    by apply initFromDeckCornerpoint_builder.
Qed.

(** *** Every constructor *)

Lemma initFromDeckTensorgrid_Returns (deck : Deck) (gm : GridManager) :
  initFromDeckTensorgrid deck = Returns gm → ∃ ug, c_grid gm = Some ug.
Proof.
  unfold initFromDeckTensorgrid.
  destruct (logical_dims deck) as [[[nx ny] nz]| |]; simpl; try done.
  destruct (keyword_SIDoubleData deck "DXV") as [dxv| |]; simpl; try done.
  destruct (keyword_SIDoubleData deck "DYV") as [dyv| |]; simpl; try done.
  destruct (keyword_SIDoubleData deck "DZV") as [dzv| |]; simpl; try done.
  repeat (case_bool_decide; [done|]).
  destruct (top_corner_depths _ _ _) as [td| |]; simpl; try done.
  intros (ug & _ & ?)%constructed_Returns. by exists ug.
Qed.

Lemma cornerpoint_builder_constructed_Returns (g : grdecl) (h h' : heap)
    (gm : GridManager) :
  (ug ← cornerpoint_builder g d0; pure (constructed ug "Failed to construct grid.")) h
    = (Returns gm, h') →
  ∃ ug, c_grid gm = Some ug.
Proof.
  unfold mbind, M_bind, cornerpoint_builder, pure.
  destruct (create_grid_cornerpoint g d0 h) as [ug h1].
  intros [= (g' & _ & ?)%constructed_Returns _]. by exists g'.
Qed.

Lemma initFromDeckCornerpoint_Returns (deck : Deck) (h h' : heap) (gm : GridManager) :
  initFromDeckCornerpoint deck h = (Returns gm, h') → ∃ ug, c_grid gm = Some ug.
Proof.
  unfold initFromDeckCornerpoint. unfold mbind at 1, M_bind at 1.
  destruct (createGrdecl deck h) as [[g| |] h1]; try done.
  apply cornerpoint_builder_constructed_Returns.
Qed.

Lemma pure_Returns {A : Type} (o : outcome A) (a : A) (h h' : heap) :
  pure o h = (Returns a, h') → o = Returns a.
Proof. unfold pure. by intros [= -> _]. Qed.

(** Whatever a constructor returns holds a grid. *)
Lemma construct_Returns (c : construction) (h h' : heap) (gm : GridManager) :
  construct c h = (Returns gm, h') → ∃ ug, c_grid gm = Some ug.
Proof.
  destruct c; simpl.
  - apply cornerpoint_builder_constructed_Returns.
  - unfold GridManager_deck.
    destruct (hasKeyword deck "ZCORN" && hasKeyword deck "COORD").
    { apply initFromDeckCornerpoint_Returns. }
    destruct (hasKeyword deck "DXV" && hasKeyword deck "DYV" && hasKeyword deck "DZV").
    { intros H%pure_Returns. by eapply initFromDeckTensorgrid_Returns. }
    done.
  - intros (ug & _ & ?)%pure_Returns%constructed_Returns. by exists ug.
  - intros (ug & _ & ?)%pure_Returns%constructed_Returns. by exists ug.
  - intros (ug & _ & ?)%pure_Returns%constructed_Returns. by exists ug.
  - intros (ug & _ & ?)%pure_Returns%constructed_Returns. by exists ug.
  - intros (ug & _ & ?)%pure_Returns%constructed_Returns. by exists ug.
Qed.

(** The top depths are undefined exactly when the TOPS branch is taken on a
    TOPS keyword without values: element 0 is read whatever the size. *)
Lemma top_corner_depths_Undefined (deck : Deck) (x y : list double) :
  top_corner_depths deck x y = Undefined ↔
  deck !! "DEPTHZ" = None ∧ keyword_SIDoubleData deck "TOPS" = Returns [].
Proof.
  unfold top_corner_depths. split.
  - destruct (hasKeyword deck "DEPTHZ") eqn:Hd.
    { destruct (keyword_SIDoubleData deck "DEPTHZ") as [depthz|e|] eqn:Hdz; simpl;
        try done.
      - by case_bool_decide.
      - unfold keyword_SIDoubleData, getKeyword, getSIDoubleData, getRecord,
          getItem, at_index in Hdz.
        destruct (deck !! "DEPTHZ") as [kw|]; simpl in Hdz; [|done].
        destruct (kw !! 0%nat) as [rec|]; simpl in Hdz; [|done].
        by destruct (rec !! 0%nat) as [[data|data]|]. }
    apply hasKeyword_false in Hd.
    destruct (hasKeyword deck "TOPS"); [|done].
    destruct (keyword_SIDoubleData deck "TOPS") as [[|t0 rest]|e|] eqn:Ht; simpl;
      try done.
    + by case_bool_decide.
    + unfold keyword_SIDoubleData, getKeyword, getSIDoubleData, getRecord,
        getItem, at_index in Ht.
      destruct (deck !! "TOPS") as [kw|]; simpl in Ht; [|done].
      destruct (kw !! 0%nat) as [rec|]; simpl in Ht; [|done].
      by destruct (rec !! 0%nat) as [[data|data]|].
  - intros [Hd Ht].
    by rewrite (hasKeyword_None _ _ Hd), (keyword_SIDoubleData_present _ _ _ Ht), Ht.
Qed.

(** The only run the language leaves undefined: the tensor-grid path
    reading element 0 of a TOPS keyword without values. *)
Lemma record0_int_defined (kw : DeckKeyword) (i : nat) : record0_int kw i ≠ Undefined.
Proof.
  unfold record0_int, getRecord, getItem, getInt, at_index.
  destruct (kw !! 0%nat) as [rec|]; simpl; [|done].
  destruct (rec !! i) as [[data|data]|]; simpl; try done.
  by destruct (data !! 0%nat).
Qed.

Lemma logical_dims_defined (deck : Deck) : logical_dims deck ≠ Undefined.
Proof.
  assert (Hkw : ∀ (kw : DeckKeyword),
    (nx ← record0_int kw 0; ny ← record0_int kw 1; nz ← record0_int kw 2;
     Returns (nx, ny, nz)) ≠ Undefined).
  { intros kw.
    destruct (record0_int kw 0) as [nx|e0|] eqn:H0; simpl; try done;
      [|by apply record0_int_defined in H0].
    destruct (record0_int kw 1) as [ny|e1|] eqn:H1; simpl; try done;
      [|by apply record0_int_defined in H1].
    destruct (record0_int kw 2) as [nz|e2|] eqn:H2; simpl; try done.
    by apply record0_int_defined in H2. }
  unfold logical_dims, getKeyword.
  destruct (hasKeyword deck "DIMENS").
  - destruct (deck !! "DIMENS") as [kw|]; simpl; [apply Hkw|done].
  - destruct (hasKeyword deck "SPECGRID"); [|done].
    destruct (deck !! "SPECGRID") as [kw|]; simpl; [apply Hkw|done].
Qed.

Lemma actnum_pointer_defined (deck : Deck) : actnum_pointer deck ≠ Undefined.
Proof.
  unfold actnum_pointer, getKeyword, getIntData, getRecord, getItem, at_index.
  destruct (hasKeyword deck "ACTNUM"); [|done].
  destruct (deck !! "ACTNUM") as [kw|]; simpl; [|done].
  destruct (kw !! 0%nat) as [rec|]; simpl; [|done].
  by destruct (rec !! 0%nat) as [[data|data]|].
Qed.

Lemma constructed_defined (ug : option UnstructuredGrid) (what : string) :
  constructed ug what ≠ Undefined.
Proof. by destruct ug. Qed.

(** The loop stores inside the block it was given. *)
Lemma copy_mapaxes_defined (n : nat) :
  ∀ (record : DeckRecord) (p : positive) (i : nat) (h : heap)
    (block : list (option double)),
    h !! p = Some block → (i + n ≤ length block)%nat →
    (copy_mapaxes record p i n h).1 ≠ Undefined.
Proof.
  induction n as [|n IH]; intros record p i h block Hp Hlen; simpl; [done|].
  unfold mbind at 1, M_bind at 1, pure at 1, getItem, getSIDouble, at_index.
  destruct (record !! i) as [[data|data]|]; simpl; try done.
  destruct (data !! 0%nat) as [v|]; simpl; [|done].
  unfold mbind at 1, M_bind at 1, store at 1. rewrite Hp.
  rewrite decide_True by lia.
  apply (IH record p (S i) _ (<[i := Some v]> block)).
  - apply lookup_insert_eq.
  - rewrite length_insert. lia.
Qed.

Lemma mapaxes_pointer_defined (deck : Deck) (h : heap) :
  (mapaxes_pointer deck h).1 ≠ Undefined.
Proof.
  unfold mapaxes_pointer.
  destruct (hasKeyword deck "MAPAXES"); [|done].
  unfold mbind at 1, M_bind at 1, pure at 1, getKeyword, getRecord, at_index.
  destruct (deck !! "MAPAXES") as [kw|]; simpl; [|done].
  destruct (kw !! 0%nat) as [record|]; simpl; [|done].
  unfold mbind at 1, M_bind at 1, malloc at 1. cbn zeta.
  unfold mbind at 1, M_bind at 1.
  pose proof (copy_mapaxes_defined (length record) record (fresh (dom h)) 0
                (<[fresh (dom h) := replicate (length record) None]> h)
                (replicate (length record) None)) as Hloop.
  destruct (copy_mapaxes _ _ _ _ _) as [[[]|e|] h1]; simpl in *; try done.
  intros _. apply Hloop; [apply lookup_insert_eq|by rewrite length_replicate|done].
Qed.

Lemma createGrdecl_defined (deck : Deck) (h : heap) :
  (createGrdecl deck h).1 ≠ Undefined.
Proof.
  unfold createGrdecl, mbind, M_bind, pure.
  destruct (keyword_SIDoubleData deck "ZCORN") as [zcorn'|e|] eqn:Hz; simpl;
    [|done|by apply keyword_SIDoubleData_defined in Hz].
  destruct (keyword_SIDoubleData deck "COORD") as [coord'|e|] eqn:Hc; simpl;
    [|done|by apply keyword_SIDoubleData_defined in Hc].
  destruct (actnum_pointer deck) as [actnum'|e|] eqn:Ha; simpl;
    [|done|by apply actnum_pointer_defined in Ha].
  destruct (logical_dims deck) as [dims'|e|] eqn:Hd; simpl;
    [|done|by apply logical_dims_defined in Hd].
  pose proof (mapaxes_pointer_defined deck h) as Hm.
  by destruct (mapaxes_pointer deck h) as [[ptr|e|] h1].
Qed.

Lemma initFromDeckCornerpoint_defined (deck : Deck) (h : heap) :
  (initFromDeckCornerpoint deck h).1 ≠ Undefined.
Proof.
  unfold initFromDeckCornerpoint. unfold mbind at 1, M_bind at 1.
  pose proof (createGrdecl_defined deck h) as Hg.
  destruct (createGrdecl deck h) as [[g|e|] h1]; simpl in *; try done.
  unfold mbind, M_bind, cornerpoint_builder, pure.
  destruct (create_grid_cornerpoint g d0 h1) as [ug h2]. simpl.
  apply constructed_defined.
Qed.

Lemma initFromDeckTensorgrid_Undefined (deck : Deck) :
  initFromDeckTensorgrid deck = Undefined →
  deck !! "DEPTHZ" = None ∧ keyword_SIDoubleData deck "TOPS" = Returns [].
Proof.
  unfold initFromDeckTensorgrid.
  destruct (logical_dims deck) as [[[nx ny] nz]|e|] eqn:Hdims; simpl;
    [|done|by apply logical_dims_defined in Hdims].
  destruct (keyword_SIDoubleData deck "DXV") as [dxv|e|] eqn:Hx; simpl;
    [|done|by apply keyword_SIDoubleData_defined in Hx].
  destruct (keyword_SIDoubleData deck "DYV") as [dyv|e|] eqn:Hy; simpl;
    [|done|by apply keyword_SIDoubleData_defined in Hy].
  destruct (keyword_SIDoubleData deck "DZV") as [dzv|e|] eqn:Hz; simpl;
    [|done|by apply keyword_SIDoubleData_defined in Hz].
  repeat (case_bool_decide; [done|]).
  destruct (top_corner_depths _ _ _) as [td|e|] eqn:Htd; simpl.
  - intros Hug. by apply constructed_defined in Hug.
  - done.
  - intros _. by apply top_corner_depths_Undefined in Htd.
Qed.

Lemma construct_Undefined (c : construction) (h : heap) :
  (construct c h).1 = Undefined →
  ∃ deck, c = from_deck deck ∧ deck !! "DEPTHZ" = None ∧
          keyword_SIDoubleData deck "TOPS" = Returns [].
Proof.
  destruct c; simpl.
  - unfold GridManager_eclipseGrid, mbind, M_bind, cornerpoint_builder, pure.
    destruct (create_grid_cornerpoint _ d0 h) as [ug h1]. simpl.
    intros H. by apply constructed_defined in H.
  - unfold GridManager_deck.
    destruct (hasKeyword deck "ZCORN" && hasKeyword deck "COORD").
    { intros H. by apply initFromDeckCornerpoint_defined in H. }
    destruct (hasKeyword deck "DXV" && hasKeyword deck "DYV" && hasKeyword deck "DZV");
      [|done].
    unfold pure. simpl. intros [? ?]%initFromDeckTensorgrid_Undefined.
    by exists deck.
  - unfold pure. simpl. intros H. by apply constructed_defined in H.
  - unfold pure. simpl. intros H. by apply constructed_defined in H.
  - unfold pure. simpl. intros H. by apply constructed_defined in H.
  - unfold pure. simpl. intros H. by apply constructed_defined in H.
  - unfold pure. simpl. intros H. by apply constructed_defined in H.
Qed.

(** C2. Every constructor either completes with a manager that holds a grid
    (never a null pointer), or fails by throwing: "Failed to construct grid."
    when the builder it calls returns null, "Failed to read grid from file "
    followed by the path for the file constructor. A failed construction
    yields no manager at all, so there is nothing half-built to observe. The
    one construction left out of the alternative is a deck that sends the
    tensor-grid path to a TOPS keyword without values, where the run is
    undefined. *)
Theorem C2_construct_or_fail :
  (∀ c h gm h', construct c h = (Returns gm, h') → ∃ ug, c_grid gm = Some ug) ∧
  (∀ c h,
     ¬ (∃ deck, c = from_deck deck ∧ deck !! "DEPTHZ" = None ∧
                keyword_SIDoubleData deck "TOPS" = Returns []) →
     (∃ gm ug, (construct c h).1 = Returns gm ∧ c_grid gm = Some ug) ∨
     (∃ e, (construct c h).1 = Throws e)) ∧
  (∀ input_filename h,
     construct (from_file input_filename) h =
       (match read_grid input_filename with
        | Some ug => Returns {| ug_ := Some ug |}
        | None => Throws (runtime_error
                    ("Failed to read grid from file " +:+ input_filename))
        end, h)) ∧
  (∀ nx ny h,
     construct (cartesian_2d_unit nx ny) h =
       (match create_grid_cart2d nx ny d1 d1 with
        | Some ug => Returns {| ug_ := Some ug |}
        | None => Throws (runtime_error "Failed to construct grid.")
        end, h)) ∧
  (∀ nx ny dx dy h,
     construct (cartesian_2d nx ny dx dy) h =
       (match create_grid_cart2d nx ny dx dy with
        | Some ug => Returns {| ug_ := Some ug |}
        | None => Throws (runtime_error "Failed to construct grid.")
        end, h)) ∧
  (∀ nx ny nz h,
     construct (cartesian_3d_unit nx ny nz) h =
       (match create_grid_cart3d nx ny nz with
        | Some ug => Returns {| ug_ := Some ug |}
        | None => Throws (runtime_error "Failed to construct grid.")
        end, h)) ∧
  (∀ nx ny nz dx dy dz h,
     construct (cartesian_3d nx ny nz dx dy dz) h =
       (match create_grid_hexa3d nx ny nz dx dy dz with
        | Some ug => Returns {| ug_ := Some ug |}
        | None => Throws (runtime_error "Failed to construct grid.")
        end, h)) ∧
  (∀ eclipseGrid h,
     let g := {| dims := (getNX eclipseGrid, getNY eclipseGrid, getNZ eclipseGrid);
                 coord := exportCOORD eclipseGrid;
                 zcorn := exportZCORN eclipseGrid;
                 actnum := Some (exportACTNUM eclipseGrid);
                 mapaxes := mapaxes_data (exportMAPAXES eclipseGrid) |} in
     construct (from_eclipseGrid eclipseGrid) h =
       (match (create_grid_cornerpoint g d0 h).1 with
        | Some ug => Returns {| ug_ := Some ug |}
        | None => Throws (runtime_error "Failed to construct grid.")
        end, (create_grid_cornerpoint g d0 h).2)) ∧
  (∀ deck h g h1,
     is_Some (deck !! "ZCORN") → is_Some (deck !! "COORD") →
     createGrdecl deck h = (Returns g, h1) →
     construct (from_deck deck) h =
       (match (create_grid_cornerpoint g d0 h1).1 with
        | Some ug => Returns {| ug_ := Some ug |}
        | None => Throws (runtime_error "Failed to construct grid.")
        end, (create_grid_cornerpoint g d0 h1).2)) ∧
  (∀ deck h nx ny nz dxv dyv dzv top_depths,
     ¬ (is_Some (deck !! "ZCORN") ∧ is_Some (deck !! "COORD")) →
     logical_dims deck = Returns (nx, ny, nz) →
     keyword_SIDoubleData deck "DXV" = Returns dxv →
     keyword_SIDoubleData deck "DYV" = Returns dyv →
     keyword_SIDoubleData deck "DZV" = Returns dzv →
     nx = int_of_size (length dxv) → ny = int_of_size (length dyv) →
     nz = int_of_size (length dzv) →
     top_corner_depths deck (coordsFromDeltas dxv) (coordsFromDeltas dyv)
       = Returns top_depths →
     construct (from_deck deck) h =
       (match create_grid_tensor3d nx ny nz (coordsFromDeltas dxv)
                (coordsFromDeltas dyv) (coordsFromDeltas dzv) top_depths with
        | Some ug => Returns {| ug_ := Some ug |}
        | None => Throws (runtime_error "Failed to construct grid.")
        end, h)).
Proof.
  split; [intros c h gm h'; apply construct_Returns|].
  split.
  { intros c h Hdef.
    pose proof (construct_Undefined c h) as Hundef.
    destruct (construct c h) as [[gm|e|] h'] eqn:Hc; simpl in *.
    - left. destruct (construct_Returns _ _ _ _ Hc) as [ug Hug]. by exists gm, ug.
    - right. by exists e.
    - destruct Hdef. by apply Hundef. }
  split. { intros f h. simpl. unfold pure, GridManager_file, constructed.
           by destruct (read_grid f). }
  split. { intros nx ny h. simpl. unfold pure, GridManager_2d_unit, constructed.
           by destruct (create_grid_cart2d nx ny d1 d1). }
  split. { intros nx ny dx dy h. simpl. unfold pure, GridManager_2d, constructed.
           by destruct (create_grid_cart2d nx ny dx dy). }
  split. { intros nx ny nz h. simpl. unfold pure, GridManager_3d_unit, constructed.
           by destruct (create_grid_cart3d nx ny nz). }
  split. { intros nx ny nz dx dy dz h. simpl.
           unfold pure, GridManager_3d, constructed.
           by destruct (create_grid_hexa3d nx ny nz dx dy dz). }
  split.
  { intros eg h g. simpl. unfold GridManager_eclipseGrid, mbind, M_bind,
      cornerpoint_builder, pure. fold g.
    by destruct (create_grid_cornerpoint g d0 h) as [[ug|] h1]. }
  split.
  { intros deck h g h1 Hz Hc Hg. simpl.
    rewrite (GridManager_deck_cornerpoint _ Hz Hc).
    rewrite (initFromDeckCornerpoint_builder _ _ _ _ Hg).
    by destruct (create_grid_cornerpoint g d0 h1) as [[ug|] h2]. }
  intros deck h nx ny nz dxv dyv dzv top_depths Hno Hdims Hx Hy Hz Hnx Hny Hnz Htd.
  simpl.
  rewrite GridManager_deck_tensorgrid;
    [|done|apply hasKeyword_true; by eapply keyword_SIDoubleData_present..].
  unfold pure.
  rewrite (initFromDeckTensorgrid_checked _ _ _ _ _ _ _ Hdims Hx Hy Hz Hnx Hny Hnz).
  rewrite Htd. simpl.
  by destruct (create_grid_tensor3d _ _ _ _ _ _ _).
Qed.

(** *** Coordinates on the tensor-grid path *)

(** C5. For every delta vector of length n, the coordinate vector built from
    it has length n+1, starts with 0.0, and every later coordinate is the one
    before it plus the delta between them: coords[i] = coords[i-1] +
    delta[i-1] for 1 <= i <= n, as numbers (for i >= 2 also as data;
    coords[1] is delta[0] itself, which differs from 0.0 + delta[0] only in
    the sign of a zero). The tensor-grid path builds the coordinates of each
    of DXV, DYV and DZV this way, one vector from each, and hands the three
    to the builder. *)
Theorem C5_cumulative_coordinates :
  (∀ deltas : list double,
     length (coordsFromDeltas deltas) = S (length deltas) ∧
     coordsFromDeltas deltas !! 0%nat = Some d0 ∧
     ∀ i : nat, (1 ≤ i ≤ length deltas)%nat →
       ∃ c cprev dl,
         coordsFromDeltas deltas !! i = Some c ∧
         coordsFromDeltas deltas !! (i - 1)%nat = Some cprev ∧
         deltas !! (i - 1)%nat = Some dl ∧
         same_number c (dadd cprev dl) ∧
         (2 ≤ i → c = dadd cprev dl)%nat ∧
         (i = 1%nat → c = dl)) ∧
  (∀ (deck : Deck) nx ny nz dxv dyv dzv top_depths,
     logical_dims deck = Returns (nx, ny, nz) →
     keyword_SIDoubleData deck "DXV" = Returns dxv →
     keyword_SIDoubleData deck "DYV" = Returns dyv →
     keyword_SIDoubleData deck "DZV" = Returns dzv →
     nx = int_of_size (length dxv) → ny = int_of_size (length dyv) →
     nz = int_of_size (length dzv) →
     top_corner_depths deck (coordsFromDeltas dxv) (coordsFromDeltas dyv)
       = Returns top_depths →
     initFromDeckTensorgrid deck =
       constructed
         (create_grid_tensor3d nx ny nz (coordsFromDeltas dxv) (coordsFromDeltas dyv)
            (coordsFromDeltas dzv) top_depths)
         "Failed to construct grid.").
Proof.
  split; [apply coordsFromDeltas_cumulative|].
  intros deck nx ny nz dxv dyv dzv top_depths Hdims Hx Hy Hz Hnx Hny Hnz Htd.
  rewrite (initFromDeckTensorgrid_checked _ _ _ _ _ _ _ Hdims Hx Hy Hz Hnx Hny Hnz).
  by rewrite Htd.
Qed.

(** *** Reads the checks do not cover *)

(** The three dimension checks passed, DEPTHZ absent and a TOPS keyword
    without values: the path reads out of bounds. *)
Lemma initFromDeckTensorgrid_empty_TOPS (deck : Deck) (nx ny nz : Z)
    (dxv dyv dzv : list double) :
  logical_dims deck = Returns (nx, ny, nz) →
  keyword_SIDoubleData deck "DXV" = Returns dxv →
  keyword_SIDoubleData deck "DYV" = Returns dyv →
  keyword_SIDoubleData deck "DZV" = Returns dzv →
  nx = int_of_size (length dxv) → ny = int_of_size (length dyv) →
  nz = int_of_size (length dzv) →
  deck !! "DEPTHZ" = None → keyword_SIDoubleData deck "TOPS" = Returns [] →
  initFromDeckTensorgrid deck = Undefined.
Proof.
  intros Hdims Hx Hy Hz Hnx Hny Hnz Hd Ht.
  rewrite (initFromDeckTensorgrid_checked _ _ _ _ _ _ _ Hdims Hx Hy Hz Hnx Hny Hnz).
  by rewrite (proj2 (top_corner_depths_Undefined deck _ _) (conj Hd Ht)).
Qed.

(** X14. [createGrdecl] compares no size with the dimensions: with other ZCORN or
    COORD data, of any length, it returns the same record around them. *)
Lemma createGrdecl_any_sizes (deck : Deck) (h h' : heap) (g : grdecl)
    (zcorn' coord' : list double) :
  createGrdecl deck h = (Returns g, h') →
  createGrdecl (<["ZCORN" := [[DeckDoubleItem zcorn']]]>
                  (<["COORD" := [[DeckDoubleItem coord']]]> deck)) h =
    (Returns {| dims := dims g; coord := coord'; zcorn := zcorn';
                actnum := actnum g; mapaxes := mapaxes g |}, h').
Proof.
  intros (Hz & Hc & Ha & Hd & Hm)%createGrdecl_Returns.
  set (deck' := <["ZCORN" := _]> _).
  assert (Hsame : ∀ name, name ≠ "ZCORN" → name ≠ "COORD" →
                          deck' !! name = deck !! name).
  { intros name H1 H2. unfold deck'. by rewrite !lookup_insert_ne. }
  rewrite (createGrdecl_steps deck' h zcorn' coord' (actnum g) (dims g)).
  - replace (mapaxes_pointer deck' h) with (mapaxes_pointer deck h); [by rewrite Hm|].
    unfold mapaxes_pointer, hasKeyword, getKeyword. by rewrite Hsame.
  - unfold keyword_SIDoubleData, getKeyword, deck'. by rewrite lookup_insert_eq.
  - unfold keyword_SIDoubleData, getKeyword, deck'.
    by rewrite lookup_insert_ne, lookup_insert_eq.
  - rewrite <- Ha. unfold actnum_pointer, hasKeyword, getKeyword. by rewrite Hsame.
  - rewrite <- Hd. apply logical_dims_ext; by apply Hsame.
Qed.

End Properties.

(** ** mx_init_grdecl: the sizes are checked against the dimensions *)

Lemma int_mul_Returns (a b c : Z) : int_mul a b = Returns c → c = a * b.
Proof. unfold int_mul. case_bool_decide; [by intros [= <-]|done]. Qed.

Lemma int_add_Returns (a b c : Z) : int_add a b = Returns c → c = a + b.
Proof. unfold int_add. case_bool_decide; [by intros [= <-]|done]. Qed.

Lemma int_mul_in_range (a b : Z) :
  - 2 ^ 31 ≤ a * b ≤ INT_MAX → int_mul a b = Returns (a * b).
Proof. intros H. unfold int_mul. by rewrite bool_decide_eq_true_2. Qed.

Lemma int_add_in_range (a b : Z) :
  - 2 ^ 31 ≤ a + b ≤ INT_MAX → int_add a b = Returns (a + b).
Proof. intros H. unfold int_add. by rewrite bool_decide_eq_true_2. Qed.

Ltac int_arith :=
  repeat (first [ rewrite int_mul_in_range by (unfold INT_MAX in *; nia)
                | rewrite int_add_in_range by (unfold INT_MAX in *; nia) ];
          simpl).

(** X15. Whatever the gateway returns has ACTNUM, COORD and ZCORN arrays of the
    sizes the dimensions ask for. *)
Lemma mx_init_grdecl_Returns (g g' : grdecl) (s : gmap string mxArray) :
  mx_init_grdecl g s = Returns g' →
  ∃ nx ny nz data,
    dims g' = (nx, ny, nz) ∧ actnum g' = Some data ∧
    int_of_size (length data) = nx * ny * nz ∧
    int_of_size (length (coord g')) = 6 * (nx + 1) * (ny + 1) ∧
    int_of_size (length (zcorn g')) = 8 * nx * ny * nz.
Proof.
  unfold mx_init_grdecl, mxGetField, mexErrMsgTxt.
  destruct (s !! "cartDims") as [cart|]; simpl; [|done].
  case_bool_decide; [done|].
  destruct (cartDims_round cart 0 1) as [[nx n1]| |]; simpl; try done.
  destruct (cartDims_round cart 1 n1) as [[ny n2]| |]; simpl; try done.
  destruct (cartDims_round cart 2 n2) as [[nz n3]| |]; simpl; try done.
  destruct (s !! "ACTNUM") as [act|]; simpl; [|done].
  case_bool_decide as Hact; simpl; [done|].
  destruct (int_mul nx ny) as [nxy| |] eqn:Hnxy; simpl; try done.
  destruct (int_mul nxy nz) as [nxyz| |] eqn:Hnxyz; simpl; try done.
  case_bool_decide as Hactn; simpl; [done|].
  destruct (s !! "COORD") as [coordf|]; simpl; [|done].
  case_bool_decide as Hcoord; simpl; [done|].
  destruct (int_add nx 1) as [nx1| |] eqn:Hnx1; simpl; try done.
  destruct (int_mul 6 nx1) as [a| |] eqn:Ha; simpl; try done.
  destruct (int_add ny 1) as [ny1| |] eqn:Hny1; simpl; try done.
  destruct (int_mul a ny1) as [b| |] eqn:Hb; simpl; try done.
  case_bool_decide as Hcoordn; simpl; [done|].
  destruct (s !! "ZCORN") as [zcornf|]; simpl; [|done].
  case_bool_decide as Hzcorn; simpl; [done|].
  destruct (int_mul 8 nx) as [a8| |] eqn:Ha8; simpl; try done.
  destruct (int_mul a8 ny) as [b8| |] eqn:Hb8; simpl; try done.
  destruct (int_mul b8 nz) as [c8| |] eqn:Hc8; simpl; try done.
  case_bool_decide as Hzcornn; simpl; [done|].
  intros [= <-]. simpl.
  apply int_mul_Returns in Hnxy, Hnxyz, Ha, Hb, Ha8, Hb8, Hc8.
  apply int_add_Returns in Hnx1, Hny1. subst.
  destruct act as [|data|]; simpl in *; try done.
  destruct coordf as [coord'| |]; simpl in *; try done.
  destruct zcornf as [zcorn'| |]; simpl in *; try done.
  by exists nx, ny, nz, data.
Qed.

(** X16. With dimensions and ACTNUM in order, a COORD or ZCORN array of doubles
    whose size does not match the dimensions stops the gateway with the
    error about that array, and matching sizes let it return. *)
Lemma mx_init_grdecl_sizes (g : grdecl) (s : gmap string mxArray) (cart : mxArray)
    (nx ny nz n1 n2 n3 : Z) (data : list Z) (coord' zcorn' : list double) :
  s !! "cartDims" = Some cart → mxGetNumberOfElements cart = 3 →
  cartDims_round cart 0 1 = Returns (nx, n1) →
  cartDims_round cart 1 n1 = Returns (ny, n2) →
  cartDims_round cart 2 n2 = Returns (nz, n3) →
  0 < nx → 0 < ny → 0 < nz →
  8 * nx * ny * nz ≤ INT_MAX → 6 * (nx + 1) * (ny + 1) ≤ INT_MAX →
  s !! "ACTNUM" = Some (mxInt32Array data) →
  int_of_size (length data) = nx * ny * nz →
  s !! "COORD" = Some (mxDoubleArray coord') →
  s !! "ZCORN" = Some (mxDoubleArray zcorn') →
  (int_of_size (length coord') ≠ 6 * (nx + 1) * (ny + 1) →
   mx_init_grdecl g s =
     Throws (mex_error "COORD field must have 6*(nx+1)*(ny+1) doubles.")) ∧
  (int_of_size (length coord') = 6 * (nx + 1) * (ny + 1) →
   int_of_size (length zcorn') ≠ 8 * nx * ny * nz →
   mx_init_grdecl g s = Throws (mex_error "ZCORN field must have 8*nx*ny*nz doubles.")) ∧
  (int_of_size (length coord') = 6 * (nx + 1) * (ny + 1) →
   int_of_size (length zcorn') = 8 * nx * ny * nz →
   mx_init_grdecl g s =
     Returns {| dims := (nx, ny, nz); coord := coord'; zcorn := zcorn';
                actnum := Some data; mapaxes := mapaxes g |}).
Proof.
  intros Hcart Hnumel H0 H1 H2 Hnx Hny Hnz Hz8 Hc6 Hact Hactn Hcoord Hzcorn.
  assert (Hrun : mx_init_grdecl g s =
    if bool_decide (int_of_size (length coord') ≠ 6 * (nx + 1) * (ny + 1)) then
      Throws (mex_error "COORD field must have 6*(nx+1)*(ny+1) doubles.")
    else if bool_decide (int_of_size (length zcorn') ≠ 8 * nx * ny * nz) then
      Throws (mex_error "ZCORN field must have 8*nx*ny*nz doubles.")
    else Returns {| dims := (nx, ny, nz); coord := coord'; zcorn := zcorn';
                    actnum := Some data; mapaxes := mapaxes g |}).
  { unfold mx_init_grdecl, mxGetField, mexErrMsgTxt.
    rewrite Hcart. simpl. rewrite Hnumel.
    rewrite bool_decide_eq_false_2 by (intros Hne'; by apply Hne').
    rewrite H0. simpl. rewrite H1. simpl. rewrite H2. simpl.
    rewrite Hact. simpl. int_arith.
    rewrite Hactn. rewrite bool_decide_eq_false_2 by (intros Hne'; by apply Hne').
    simpl. rewrite Hcoord. simpl. int_arith.
    case_bool_decide; simpl; [done|].
    rewrite Hzcorn. simpl. int_arith.
    by case_bool_decide. }
  rewrite Hrun. split; [|split].
  - intros Hne. by rewrite bool_decide_eq_true_2.
  - intros Heq Hne. rewrite bool_decide_eq_false_2 by (intros Hne'; by apply Hne').
    by rewrite bool_decide_eq_true_2.
  - intros Heq1 Heq2. by rewrite !bool_decide_eq_false_2 by (intros Hne'; by apply Hne').
Qed.

(** ** The properties on the decks above *)

Ltac present := eexists; vm_compute; reflexivity.
Ltac absent := intros [[? Hkw] _]; vm_compute in Hkw; discriminate.

(** The deck of the specification with both families of keywords takes the
    corner-point path; the tensor deck takes the tensor path; an empty deck
    is refused. *)
Lemma C1_deck_dispatch_examples :
  GridManager_deck (GL := cell_count_library) deck_both
    = initFromDeckCornerpoint deck_both ∧
  GridManager_deck (GL := cell_count_library) deck_tensor
    = pure (initFromDeckTensorgrid deck_tensor) ∧
  GridManager_deck (GL := cell_count_library) ∅ ∅ =
    (Throws (runtime_error
       "Could not initialize grid from deck. Need either ZCORN + COORD or DXV + DYV + DZV keywords."),
     ∅).
Proof.
  split; [|split].
  - apply (proj1 (C1_deck_dispatch_first_match deck_both)); present.
  - apply (proj1 (proj2 (C1_deck_dispatch_first_match deck_tensor)));
      [absent | present..].
  - apply (proj2 (proj2 (C1_deck_dispatch_first_match ∅))); absent.
Defined.

(** The tensor deck yields a manager holding a grid; a file that cannot be
    read yields the error naming it. *)
Lemma C2_construct_examples :
  (∃ ug, c_grid (manager_of_cells 4) = Some ug) ∧
  ((∃ gm ug, (construct (GL := cell_count_library) (from_deck deck_tensor) ∅).1
               = Returns gm ∧ c_grid gm = Some ug) ∨
   (∃ e, (construct (GL := cell_count_library) (from_deck deck_tensor) ∅).1
           = Throws e)) ∧
  construct (GL := cell_count_library) (from_file "grid.txt") ∅ =
    (Throws (runtime_error "Failed to read grid from file grid.txt"), ∅).
Proof.
  split; [|split].
  - apply (proj1 (C2_construct_or_fail (GL := cell_count_library))
             (from_deck deck_tensor) ∅ (manager_of_cells 4) ∅).
    vm_compute. reflexivity.
  - apply (proj1 (proj2 (C2_construct_or_fail (GL := cell_count_library)))
             (from_deck deck_tensor) ∅).
    intros (deck & Hdeck & _ & Htops).
    injection Hdeck as <-. vm_compute in Htops. discriminate.
  - apply (proj1 (proj2 (proj2 (C2_construct_or_fail (GL := cell_count_library))))
             "grid.txt" ∅).
Defined.

(** DIMENS = (2,2,1) in the tensor deck, SPECGRID = (1,1,1) in the
    corner-point deck, and the tensor deck without DIMENS. *)
Lemma C3_logical_dimensions_examples :
  logical_dims deck_tensor = Returns (2, 2, 1) ∧
  logical_dims deck_cornerpoint = Returns (1, 1, 1) ∧
  initFromDeckTensorgrid (GL := cell_count_library) (delete "DIMENS" deck_tensor) =
    Throws (runtime_error "Deck must have either DIMENS or SPECGRID.").
Proof.
  split; [|split].
  - apply (proj1 (C3_logical_dimensions (GL := cell_count_library) deck_tensor)
             2 2 1 [] [] [] [] []).
    vm_compute. reflexivity.
  - apply (proj1 (proj2 (C3_logical_dimensions (GL := cell_count_library)
                           deck_cornerpoint)) 1 1 1 [] [] [] [] []);
      vm_compute; reflexivity.
  - apply (proj1 (proj2 (proj2 (C3_logical_dimensions (GL := cell_count_library)
                                  (delete "DIMENS" deck_tensor)))));
      vm_compute; reflexivity.
Defined.

(** The deltas 1, 2, 2 give the coordinate 5 = 3 + 2 at index 3. *)
Lemma C5_cumulative_coordinates_example :
  ∃ c cprev dl,
    coordsFromDeltas [d1; d2; d2] !! 3%nat = Some c ∧
    coordsFromDeltas [d1; d2; d2] !! (3 - 1)%nat = Some cprev ∧
    [d1; d2; d2] !! (3 - 1)%nat = Some dl ∧
    same_number c (dadd cprev dl) ∧
    (2 ≤ 3 → c = dadd cprev dl)%nat ∧
    (3%nat = 1%nat → c = dl).
Proof.
  apply (proj2 (proj2 (proj1 (C5_cumulative_coordinates (GL := cell_count_library))
                         [d1; d2; d2])) 3%nat).
  simpl. lia.
Defined.

(** DIMENS = (3,2,1) against two DXV values: the error names DXV. *)
Lemma C6_tensor_dimension_mismatch_example :
  initFromDeckTensorgrid (GL := cell_count_library) deck_wide_dims =
    Throws (runtime_error "Number of DXV data points do not match DIMENS or SPECGRID.").
Proof.
  apply (proj1 (C6_tensor_dimension_mismatch (GL := cell_count_library)
                  deck_wide_dims 3 2 1 [d1; d1] [d1; d1] [d1]
                  eq_refl eq_refl eq_refl eq_refl
                  ltac:(vm_compute; discriminate) ltac:(vm_compute; discriminate)
                  ltac:(vm_compute; discriminate))).
  simpl. lia.
Defined.

(** The scenarios of the specification: TOPS = [5,5,5,5] reaches the builder
    with 5 at each of the 9 nodes; TOPS = [5,5,6,5] fails. *)
Lemma C7_uniform_TOPS_example :
  initFromDeckTensorgrid (GL := cell_count_library) deck_tensor =
    constructed
      (create_grid_tensor3d 2 2 1 (coordsFromDeltas [d1; d1])
         (coordsFromDeltas [d1; d1]) (coordsFromDeltas [d1])
         (Some (replicate (Z.to_nat ((2 + 1) * (2 + 1))) d5)))
      "Failed to construct grid." ∧
  initFromDeckTensorgrid (GL := cell_count_library) deck_nonuniform_tops =
    Throws (runtime_error
      "We do not support nonuniform TOPS, please use ZCORN/COORDS instead.").
Proof.
  split.
  - apply (proj1 (C7_uniform_TOPS_broadcast (GL := cell_count_library)
                    deck_tensor 2 2 1 [d1; d1] [d1; d1] [d1] d5 [d5; d5; d5]
                    eq_refl eq_refl eq_refl eq_refl eq_refl eq_refl eq_refl
                    ltac:(vm_compute; discriminate) ltac:(vm_compute; discriminate)
                    ltac:(vm_compute; discriminate) eq_refl eq_refl
                    ltac:(vm_compute; discriminate))).
    intros t Ht. repeat (apply elem_of_cons in Ht as [->|Ht]; [reflexivity|]).
    by apply elem_of_nil in Ht.
  - apply (proj2 (C7_uniform_TOPS_broadcast (GL := cell_count_library)
                    deck_nonuniform_tops 2 2 1 [d1; d1] [d1; d1] [d1] d5 [d5; d6; d5]
                    eq_refl eq_refl eq_refl eq_refl eq_refl eq_refl eq_refl
                    ltac:(vm_compute; discriminate) ltac:(vm_compute; discriminate)
                    ltac:(vm_compute; discriminate) eq_refl eq_refl
                    ltac:(vm_compute; discriminate))).
    exists d6. split; [|reflexivity].
    apply elem_of_cons; right. apply elem_of_cons; right. apply elem_of_cons; by left.
Defined.

(** DEPTHZ of 9 values next to a non-uniform TOPS: the builder gets DEPTHZ. *)
Lemma C9_DEPTHZ_precedes_TOPS_example :
  initFromDeckTensorgrid (GL := cell_count_library)
    (<["TOPS" := data_keyword [d5; d5; d6; d5]]> deck_depthz)
  = initFromDeckTensorgrid deck_depthz.
Proof.
  apply (proj1 (C9_DEPTHZ_precedes_TOPS (GL := cell_count_library) deck_depthz
                  ltac:(present))).
Defined.

(** The MAPAXES record of six values ends up in a new block of six cells. *)
Lemma C8_mapaxes_buffer_example :
  ∃ (p : positive) (g : grdecl) (h1 : heap),
    (∅ : heap) !! p = None ∧
    h1 = <[p := Some <$> [d0; d1; d0; d0; d1; d0]]> ∅ ∧
    length (Some <$> [d0; d1; d0; d0; d1; d0]) = 6%nat ∧
    g = {| dims := (1, 1, 1); coord := replicate 24 d0;
           zcorn := replicate 4 d0 ++ replicate 4 d1; actnum := None;
           mapaxes := mapaxes_block p |} ∧
    createGrdecl deck_mapaxes ∅ = (Returns g, h1) ∧
    initFromDeckCornerpoint (GL := cell_count_library) deck_mapaxes ∅ =
      (constructed (create_grid_cornerpoint (GridLibrary := cell_count_library)
                      g d0 h1).1 "Failed to construct grid.",
       (create_grid_cornerpoint (GridLibrary := cell_count_library) g d0 h1).2).
Proof.
  apply (proj1 (C8_mapaxes_buffer (GL := cell_count_library) deck_mapaxes ∅
                  (replicate 4 d0 ++ replicate 4 d1) (replicate 24 d0) None (1, 1, 1)
                  eq_refl eq_refl eq_refl eq_refl)
           [[DeckDoubleItem [d0]; DeckDoubleItem [d1]; DeckDoubleItem [d0];
             DeckDoubleItem [d0]; DeckDoubleItem [d1]; DeckDoubleItem [d0]]]
           [DeckDoubleItem [d0]; DeckDoubleItem [d1]; DeckDoubleItem [d0];
            DeckDoubleItem [d0]; DeckDoubleItem [d1]; DeckDoubleItem [d0]]
           [d0; d1; d0; d0; d1; d0] eq_refl eq_refl).
  repeat constructor.
Defined.

(** ** Inputs the checks let through *)

(** C4, on the deck path: sizes that do not match the dimensions are not
    refused. One cell declared and 7 corner depths given: [createGrdecl] fills in the
    record all the same, and the corner-point path hands it to the builder;
    whether a grid comes back is the builder's answer alone. The gateway of
    mxgrdecl.c refuses the same input. *)
Lemma C4_short_ZCORN_reaches_builder :
  (∀ (GL : GridLibrary) (h : heap),
     let g := {| dims := (1, 1, 1); coord := replicate 24 d0;
                 zcorn := replicate 7 d0; actnum := None;
                 mapaxes := mapaxes_NULL |} in
     Z.of_nat (length (zcorn g)) ≠ 8 * 1 * 1 * 1 ∧
     createGrdecl deck_short_zcorn h = (Returns g, h) ∧
     GridManager_deck deck_short_zcorn h =
       (constructed (create_grid_cornerpoint g d0 h).1 "Failed to construct grid.",
        (create_grid_cornerpoint g d0 h).2)) ∧
  GridManager_deck (GL := cell_count_library) deck_short_zcorn ∅ =
    (Returns (manager_of_cells 1), ∅) ∧
  mx_init_grdecl grdecl_blank mx_short_zcorn =
    Throws (mex_error "ZCORN field must have 8*nx*ny*nz doubles.").
Proof.
  split; [|split; reflexivity].
  intros GL h g.
  assert (Hg : createGrdecl deck_short_zcorn h = (Returns g, h)) by reflexivity.
  split; [simpl; lia|]. split; [exact Hg|].
  rewrite GridManager_deck_cornerpoint by present.
  by apply initFromDeckCornerpoint_builder.
Qed.

(** C10, on a deck whose TOPS keyword holds no value: the TOPS branch reads
    element 0 of an empty vector, a read out of bounds. *)
Lemma C10_empty_TOPS_read_out_of_bounds :
  keyword_SIDoubleData deck_empty_tops "TOPS" = Returns [] ∧
  element [] 0 = Undefined ∧
  ∀ GL : GridLibrary,
    initFromDeckTensorgrid deck_empty_tops = Undefined ∧
    GridManager_deck deck_empty_tops ∅ = (Undefined, ∅).
Proof.
  split; [reflexivity|]. split; [reflexivity|].
  intros GL. split; reflexivity.
Qed.

(** The gateway on a well-formed cell. *)
Lemma mx_init_grdecl_one_cell :
  mx_init_grdecl grdecl_blank mx_one_cell =
    Returns {| dims := (1, 1, 1); coord := replicate 24 d0;
               zcorn := replicate 4 d0 ++ replicate 4 d1; actnum := Some [1];
               mapaxes := mapaxes_NULL |}.
Proof. reflexivity. Qed.

(** * Further properties of the code *)

(** ** coordsFromDeltas *)

Lemma partial_sum_from_lookup (rest : list double) :
  ∀ (acc : double) (j : nat), (j < length rest)%nat →
    partial_sum_from acc rest !! j = Some (fold_left dadd (take (S j) rest) acc).
Proof.
  induction rest as [|x rest IH]; intros acc j Hj; simpl in *; [lia|].
  destruct j as [|j]; simpl.
  - done.
  - apply IH. lia.
Qed.

(** X1. Coordinate [i] is the sum of the first [i] deltas, added from left
    to right starting with the first delta (0.0 when [i] is 0). *)
Theorem coordsFromDeltas_running_sum (deltas : list double) (i : nat) :
  (i ≤ length deltas)%nat →
  coordsFromDeltas deltas !! i = Some (running_sum (take i deltas)).
Proof.
  intros Hi. rewrite coordsFromDeltas_partial_sum.
  destruct i as [|k]; [done|].
  destruct deltas as [|x rest]; simpl in *; [lia|].
  destruct k as [|j]; simpl; [done|].
  apply partial_sum_from_lookup. lia.
Qed.

Lemma take_partial_sum_from (rest : list double) :
  ∀ (acc : double) (k : nat),
    take k (partial_sum_from acc rest) = partial_sum_from acc (take k rest).
Proof.
  induction rest as [|x rest IH]; intros acc k; simpl.
  - by rewrite !take_nil.
  - destruct k as [|k]; simpl; [done|]. by rewrite IH.
Qed.

Lemma take_partial_sum (l : list double) (k : nat) :
  take k (partial_sum l) = partial_sum (take k l).
Proof.
  destruct l as [|x rest]; simpl; [by rewrite !take_nil|].
  destruct k as [|k]; simpl; [done|]. by rewrite take_partial_sum_from.
Qed.

(** X2. The coordinates of the first [k] deltas are the first [k+1]
    coordinates of the whole vector: deltas that come later change no
    earlier coordinate. *)
Theorem coordsFromDeltas_prefix (deltas more : list double) (k : nat) :
  take (S k) (coordsFromDeltas deltas) = coordsFromDeltas (take k deltas) ∧
  take (S (length deltas)) (coordsFromDeltas (deltas ++ more))
    = coordsFromDeltas deltas.
Proof.
  assert (Htake : ∀ (l : list double) (n : nat),
    take (S n) (coordsFromDeltas l) = coordsFromDeltas (take n l)).
  { intros l n. rewrite !coordsFromDeltas_partial_sum. simpl.
    by rewrite take_partial_sum. }
  split; [apply Htake|].
  by rewrite Htake, take_app_length.
Qed.

(** ** remove_duplicate_libraries *)

Lemma REMOVE_DUPLICATES_from_snoc (l : list string) :
  ∀ (seen : list string) (x : string),
    REMOVE_DUPLICATES_from seen (l ++ [x]) =
    REMOVE_DUPLICATES_from seen l ++
      (if decide (x ∈ seen ∨ x ∈ l) then [] else [x]).
Proof.
  induction l as [|y l IH]; intros seen x; simpl.
  - destruct (decide (x ∈ seen)) as [Hin|Hout].
    + by rewrite decide_True by (by left).
    + rewrite decide_False; [done|]. intros [?|Hnil]; [done|].
      by apply elem_of_nil in Hnil.
  - destruct (decide (y ∈ seen)) as [Hy|Hy].
    + rewrite IH. f_equal. apply decide_ext. rewrite elem_of_cons.
      split; [tauto|]. intros [?|[->|?]]; tauto.
    + simpl. rewrite IH. do 2 f_equal. apply decide_ext.
      rewrite !elem_of_cons. tauto.
Qed.

(** X3. The macro keeps of every library its last occurrence and nothing
    else: an entry is dropped exactly when the same entry stands later in
    the list. So the result has no duplicates and names the same libraries,
    and a variable that is not defined stays so. *)
Theorem remove_duplicate_libraries_keeps_last (l : list string) :
  remove_duplicate_libraries (Some l) = Some (remove_dups l) ∧
  remove_dups l =
    match l with
    | [] => []
    | x :: rest => if decide (x ∈ rest) then remove_dups rest
                   else x :: remove_dups rest
    end ∧
  NoDup (remove_dups l) ∧
  (∀ x, x ∈ remove_dups l ↔ x ∈ l) ∧
  remove_duplicate_libraries None = None.
Proof.
  split; [|split; [|split; [|split]]].
  - unfold remove_duplicate_libraries, REMOVE_DUPLICATES. f_equal.
    induction l as [|x l IH]; [done|].
    rewrite reverse_cons, REMOVE_DUPLICATES_from_snoc, reverse_app, IH.
    simpl. unfold decide_rel.
    destruct (list_elem_of_dec x l) as [Hin|Hout].
    + rewrite decide_True; [done|]. right. by apply elem_of_reverse.
    + rewrite decide_False; [done|]. intros [Hnil|Hrev].
      * by apply elem_of_nil in Hnil.
      * apply Hout. by apply elem_of_reverse.
  - by destruct l as [|x rest].
  - apply NoDup_remove_dups.
  - intros x. apply elem_of_remove_dups.
  - done.
Qed.

(** ** The tensor-grid path *)

Section FurtherProperties.
Context `{GL : GridLibrary}.

(** X4. Whenever the tensor-grid path has a top-depth field for the builder,
    from DEPTHZ or from TOPS, the field holds exactly one value for each of
    the (nx+1)*(ny+1) pairs of an x and a y coordinate, so it is never
    empty either. *)
Theorem top_corner_depths_size (deck : Deck) (dxv dyv top_depths : list double) :
  Z.of_nat (length dxv) ≤ INT_MAX → Z.of_nat (length dyv) ≤ INT_MAX →
  top_corner_depths deck (coordsFromDeltas dxv) (coordsFromDeltas dyv)
    = Returns (Some top_depths) →
  length top_depths = (S (length dxv) * S (length dyv))%nat ∧ top_depths ≠ [].
Proof.
  intros Hfx Hfy Htd.
  assert (Hlen : length top_depths = (S (length dxv) * S (length dyv))%nat).
  { revert Htd. unfold top_corner_depths.
    rewrite !length_coordsFromDeltas.
    rewrite size_mul_small by (unfold INT_MAX in *; lia).
    destruct (hasKeyword deck "DEPTHZ").
    - destruct (keyword_SIDoubleData deck "DEPTHZ") as [depthz| |]; simpl; try done.
      case_bool_decide as Hsize; [done|]. by intros [= <-].
    - destruct (hasKeyword deck "TOPS"); [|done].
      destruct (keyword_SIDoubleData deck "TOPS") as [tops| |]; simpl; try done.
      destruct (element tops 0) as [tops0| |]; simpl; try done.
      case_bool_decide; [done|]. intros [= <-].
      simpl. by rewrite length_replicate. }
  split; [done|]. intros ->. simpl in Hlen. lia.
Qed.

(** X5. With the dimension checks passed, a DEPTHZ whose size is not
    (nx+1)*(ny+1) makes construction fail with "Incorrect size of DEPTHZ: "
    followed by the size it has, whatever TOPS holds. *)
Theorem initFromDeckTensorgrid_DEPTHZ_size (deck : Deck) (nx ny nz : Z)
    (dxv dyv dzv depthz : list double) :
  logical_dims deck = Returns (nx, ny, nz) →
  keyword_SIDoubleData deck "DXV" = Returns dxv →
  keyword_SIDoubleData deck "DYV" = Returns dyv →
  keyword_SIDoubleData deck "DZV" = Returns dzv →
  nx = Z.of_nat (length dxv) → ny = Z.of_nat (length dyv) →
  nz = Z.of_nat (length dzv) →
  nx ≤ INT_MAX → ny ≤ INT_MAX → nz ≤ INT_MAX →
  keyword_SIDoubleData deck "DEPTHZ" = Returns depthz →
  Z.of_nat (length depthz) ≠ (nx + 1) * (ny + 1) →
  initFromDeckTensorgrid deck =
    Throws (runtime_error ("Incorrect size of DEPTHZ: " +:+ pretty (length depthz))).
Proof.
  intros Hdims Hx Hy Hz Hnx Hny Hnz Hfx Hfy Hfz Hdepthz Hsize.
  rewrite (initFromDeckTensorgrid_checked _ _ _ _ _ _ _ Hdims Hx Hy Hz)
    by (subst; by rewrite int_of_size_small).
  rewrite top_corner_depths_DEPTHZ
    by (apply hasKeyword_true; by eapply keyword_SIDoubleData_present).
  rewrite Hdepthz. simpl.
  rewrite !length_coordsFromDeltas.
  rewrite size_mul_small by (unfold INT_MAX in *; lia).
  rewrite bool_decide_eq_true_2; [done|].
  intros Heq. apply Hsize. subst nx ny. lia.
Qed.

(** X6. With the dimension checks passed and neither DEPTHZ nor TOPS in the
    deck, the builder is called with a null top-depth pointer. *)
Theorem initFromDeckTensorgrid_no_top_depths (deck : Deck) (nx ny nz : Z)
    (dxv dyv dzv : list double) :
  logical_dims deck = Returns (nx, ny, nz) →
  keyword_SIDoubleData deck "DXV" = Returns dxv →
  keyword_SIDoubleData deck "DYV" = Returns dyv →
  keyword_SIDoubleData deck "DZV" = Returns dzv →
  nx = int_of_size (length dxv) → ny = int_of_size (length dyv) →
  nz = int_of_size (length dzv) →
  deck !! "DEPTHZ" = None → deck !! "TOPS" = None →
  initFromDeckTensorgrid deck =
    constructed
      (create_grid_tensor3d nx ny nz (coordsFromDeltas dxv) (coordsFromDeltas dyv)
         (coordsFromDeltas dzv) None)
      "Failed to construct grid.".
Proof.
  intros Hdims Hx Hy Hz Hnx Hny Hnz Hd Ht.
  rewrite (initFromDeckTensorgrid_checked _ _ _ _ _ _ _ Hdims Hx Hy Hz Hnx Hny Hnz).
  unfold top_corner_depths.
  by rewrite (hasKeyword_None _ _ Hd), (hasKeyword_None _ _ Ht).
Qed.

Lemma count_NaN (v : list double) : count v NaN = 0%nat.
Proof.
  unfold count. induction v as [|a v IH]; [done|].
  rewrite filter_cons_False; [done|].
  by destruct a as [[]|[]| |[] m e].
Qed.

(** X7. A TOPS whose first value is a NaN is always refused as nonuniform,
    even when every value is that NaN: the values are compared with [==],
    and a NaN equals nothing. *)
Theorem initFromDeckTensorgrid_NaN_TOPS (deck : Deck) (nx ny nz : Z)
    (dxv dyv dzv rest : list double) :
  logical_dims deck = Returns (nx, ny, nz) →
  keyword_SIDoubleData deck "DXV" = Returns dxv →
  keyword_SIDoubleData deck "DYV" = Returns dyv →
  keyword_SIDoubleData deck "DZV" = Returns dzv →
  nx = int_of_size (length dxv) → ny = int_of_size (length dyv) →
  nz = int_of_size (length dzv) →
  deck !! "DEPTHZ" = None →
  keyword_SIDoubleData deck "TOPS" = Returns (NaN :: rest) →
  Z.of_nat (length (NaN :: rest)) ≤ INT_MAX →
  initFromDeckTensorgrid deck =
    Throws (runtime_error
      "We do not support nonuniform TOPS, please use ZCORN/COORDS instead.").
Proof.
  intros Hdims Hx Hy Hz Hnx Hny Hnz Hd Ht Hfit.
  rewrite (initFromDeckTensorgrid_checked _ _ _ _ _ _ _ Hdims Hx Hy Hz Hnx Hny Hnz).
  rewrite (top_corner_depths_TOPS _ _ _ _ _ Hd Ht).
  rewrite count_NaN, (int_of_size_small _ Hfit).
  rewrite bool_decide_eq_true_2; [done|]. simpl. lia.
Qed.

(** X8. The tensor-grid path runs into undefined behaviour in one situation
    only: the dimensions are resolved and agree with the three delta
    vectors, the deck has no DEPTHZ, and its TOPS keyword holds no value. *)
Theorem initFromDeckTensorgrid_Undefined_iff (deck : Deck) :
  initFromDeckTensorgrid deck = Undefined ↔
  ∃ dxv dyv dzv,
    logical_dims deck = Returns (int_of_size (length dxv), int_of_size (length dyv),
                                 int_of_size (length dzv)) ∧
    keyword_SIDoubleData deck "DXV" = Returns dxv ∧
    keyword_SIDoubleData deck "DYV" = Returns dyv ∧
    keyword_SIDoubleData deck "DZV" = Returns dzv ∧
    deck !! "DEPTHZ" = None ∧
    keyword_SIDoubleData deck "TOPS" = Returns [].
Proof.
  split.
  - unfold initFromDeckTensorgrid.
    destruct (logical_dims deck) as [[[nx ny] nz]|e|] eqn:Hdims; simpl;
      [|done|by apply logical_dims_defined in Hdims].
    destruct (keyword_SIDoubleData deck "DXV") as [dxv|e|] eqn:Hx; simpl;
      [|done|by apply keyword_SIDoubleData_defined in Hx].
    destruct (keyword_SIDoubleData deck "DYV") as [dyv|e|] eqn:Hy; simpl;
      [|done|by apply keyword_SIDoubleData_defined in Hy].
    destruct (keyword_SIDoubleData deck "DZV") as [dzv|e|] eqn:Hz; simpl;
      [|done|by apply keyword_SIDoubleData_defined in Hz].
    case_bool_decide as Hnx; [done|].
    case_bool_decide as Hny; [done|].
    case_bool_decide as Hnz; [done|].
    subst nx ny nz.
    destruct (top_corner_depths _ _ _) as [td|e|] eqn:Htd; simpl.
    + intros Hug. by apply constructed_defined in Hug.
    + done.
    + intros _. apply top_corner_depths_Undefined in Htd as [Hd Ht].
      by exists dxv, dyv, dzv.
  - intros (dxv & dyv & dzv & Hdims & Hx & Hy & Hz & Hd & Ht).
    by eapply initFromDeckTensorgrid_empty_TOPS.
Qed.

(** ** Keywords a path does not look at *)

Lemma createGrdecl_ext (deck deck' : Deck) :
  deck !! "ZCORN" = deck' !! "ZCORN" → deck !! "COORD" = deck' !! "COORD" →
  deck !! "ACTNUM" = deck' !! "ACTNUM" → deck !! "DIMENS" = deck' !! "DIMENS" →
  deck !! "SPECGRID" = deck' !! "SPECGRID" → deck !! "MAPAXES" = deck' !! "MAPAXES" →
  createGrdecl deck = createGrdecl deck'.
Proof.
  intros Hz Hc Ha Hd Hs Hm.
  unfold createGrdecl, keyword_SIDoubleData, actnum_pointer, logical_dims,
    mapaxes_pointer, hasKeyword, getKeyword.
  by rewrite Hz, Hc, Ha, Hd, Hs, Hm.
Qed.

(** A deck with the same corner-point keywords and the same presence of
    ZCORN and COORD is constructed the same way on the corner-point path. *)
Lemma GridManager_deck_cornerpoint_ext (deck deck' : Deck) :
  is_Some (deck !! "ZCORN") → is_Some (deck !! "COORD") →
  deck !! "ZCORN" = deck' !! "ZCORN" → deck !! "COORD" = deck' !! "COORD" →
  deck !! "ACTNUM" = deck' !! "ACTNUM" → deck !! "DIMENS" = deck' !! "DIMENS" →
  deck !! "SPECGRID" = deck' !! "SPECGRID" → deck !! "MAPAXES" = deck' !! "MAPAXES" →
  GridManager_deck deck' = GridManager_deck deck.
Proof.
  intros Hz Hc Ez Ec Ea Ed Es Em.
  rewrite (GridManager_deck_cornerpoint deck) by done.
  rewrite (GridManager_deck_cornerpoint deck') by (by rewrite <- ?Ez, <- ?Ec).
  unfold initFromDeckCornerpoint.
  by rewrite (createGrdecl_ext deck deck').
Qed.

(** X9. A deck with ZCORN and COORD is constructed on the corner-point path
    exactly as if DXV, DYV, DZV, DEPTHZ and TOPS were not there: adding,
    replacing or removing any of them changes nothing. Their absence is not
    verified. *)
Theorem GridManager_deck_cornerpoint_ignores (deck : Deck) (name : string)
    (kw : DeckKeyword) :
  is_Some (deck !! "ZCORN") → is_Some (deck !! "COORD") →
  name ∈ ["DXV"; "DYV"; "DZV"; "DEPTHZ"; "TOPS"] →
  GridManager_deck (<[name := kw]> deck) = GridManager_deck deck ∧
  GridManager_deck (delete name deck) = GridManager_deck deck.
Proof.
  intros Hz Hc Hname.
  assert (Hne : name ≠ "ZCORN" ∧ name ≠ "COORD" ∧ name ≠ "ACTNUM" ∧
                name ≠ "DIMENS" ∧ name ≠ "SPECGRID" ∧ name ≠ "MAPAXES").
  { repeat (apply elem_of_cons in Hname as [->|Hname]; [by repeat split|]).
    by apply elem_of_nil in Hname. }
  destruct Hne as (N1 & N2 & N3 & N4 & N5 & N6).
  split.
  - apply GridManager_deck_cornerpoint_ext; try done;
      by rewrite lookup_insert_ne.
  - apply GridManager_deck_cornerpoint_ext; try done;
      by rewrite lookup_delete_ne.
Qed.

(** Without both ZCORN and COORD, construction reads the tensor keywords
    only. *)
Lemma GridManager_deck_tensor_ext (deck deck' : Deck) :
  hasKeyword deck "ZCORN" && hasKeyword deck "COORD" = false →
  hasKeyword deck' "ZCORN" && hasKeyword deck' "COORD" = false →
  (∀ name, name ∈ ["DXV"; "DYV"; "DZV"; "DIMENS"; "SPECGRID"; "DEPTHZ"; "TOPS"] →
           deck' !! name = deck !! name) →
  GridManager_deck deck' = GridManager_deck deck.
Proof.
  intros Hno Hno' Hsame.
  assert (Hk : ∀ name, name ∈ ["DXV"; "DYV"; "DZV"; "DIMENS"; "SPECGRID"; "DEPTHZ"; "TOPS"] →
               hasKeyword deck' name = hasKeyword deck name).
  { intros name Hname. unfold hasKeyword. by rewrite Hsame. }
  unfold GridManager_deck. rewrite Hno, Hno'.
  rewrite !Hk by (rewrite !elem_of_cons; tauto).
  rewrite (initFromDeckTensorgrid_ext deck' deck); [done|..].
  - apply logical_dims_ext; apply Hsame; rewrite !elem_of_cons; tauto.
  - apply Hsame; rewrite !elem_of_cons; tauto.
  - apply Hsame; rewrite !elem_of_cons; tauto.
  - apply Hsame; rewrite !elem_of_cons; tauto.
  - intros x y. apply top_corner_depths_ext; apply Hsame; rewrite !elem_of_cons; tauto.
Qed.

(** X10. A deck without COORD is constructed exactly as if ZCORN, ACTNUM and
    MAPAXES were not there, and a deck without ZCORN as if COORD, ACTNUM
    and MAPAXES were not there: a lone corner-point keyword does not keep a
    deck from the tensor-grid path, and is not reported. *)
Theorem GridManager_deck_tensor_ignores (deck : Deck) (name : string)
    (kw : DeckKeyword) :
  (deck !! "COORD" = None → name ∈ ["ZCORN"; "ACTNUM"; "MAPAXES"] →
   GridManager_deck (<[name := kw]> deck) = GridManager_deck deck ∧
   GridManager_deck (delete name deck) = GridManager_deck deck) ∧
  (deck !! "ZCORN" = None → name ∈ ["COORD"; "ACTNUM"; "MAPAXES"] →
   GridManager_deck (<[name := kw]> deck) = GridManager_deck deck ∧
   GridManager_deck (delete name deck) = GridManager_deck deck).
Proof.
  assert (Hother : ∀ other, other ∈ ["DXV"; "DYV"; "DZV"; "DIMENS"; "SPECGRID"; "DEPTHZ"; "TOPS"] →
    name ∈ ["ZCORN"; "COORD"; "ACTNUM"; "MAPAXES"] → name ≠ other).
  { intros other Ho Hn ->.
    repeat (apply elem_of_cons in Ho as [->|Ho];
            [repeat (apply elem_of_cons in Hn as [Hn|Hn]; [done|]);
             by apply elem_of_nil in Hn|]).
    by apply elem_of_nil in Ho. }
  split.
  - intros Hc Hname.
    assert (Hnc : name ≠ "COORD").
    { intros ->. repeat (apply elem_of_cons in Hname as [Hname|Hname]; [done|]).
      by apply elem_of_nil in Hname. }
    assert (Hno : hasKeyword deck "ZCORN" && hasKeyword deck "COORD" = false).
    { rewrite (hasKeyword_None _ _ Hc). apply andb_false_r. }
    split; apply GridManager_deck_tensor_ext; try done.
    + unfold hasKeyword at 2. rewrite lookup_insert_ne, Hc by done.
      rewrite bool_decide_eq_false_2 by (by intros [? ?]). apply andb_false_r.
    + intros other Ho. rewrite lookup_insert_ne; [done|].
      apply Hother; [done|]. rewrite !elem_of_cons in *. tauto.
    + unfold hasKeyword at 2. rewrite lookup_delete_ne, Hc by done.
      rewrite bool_decide_eq_false_2 by (by intros [? ?]). apply andb_false_r.
    + intros other Ho. rewrite lookup_delete_ne; [done|].
      apply Hother; [done|]. rewrite !elem_of_cons in *. tauto.
  - intros Hz Hname.
    assert (Hnz : name ≠ "ZCORN").
    { intros ->. repeat (apply elem_of_cons in Hname as [Hname|Hname]; [done|]).
      by apply elem_of_nil in Hname. }
    assert (Hno : hasKeyword deck "ZCORN" && hasKeyword deck "COORD" = false).
    { by rewrite (hasKeyword_None _ _ Hz). }
    split; apply GridManager_deck_tensor_ext; try done.
    + unfold hasKeyword at 1. rewrite lookup_insert_ne, Hz by done.
      by rewrite bool_decide_eq_false_2 by (by intros [? ?]).
    + intros other Ho. rewrite lookup_insert_ne; [done|].
      apply Hother; [done|]. rewrite !elem_of_cons in *. tauto.
    + unfold hasKeyword at 1. rewrite lookup_delete_ne, Hz by done.
      by rewrite bool_decide_eq_false_2 by (by intros [? ?]).
    + intros other Ho. rewrite lookup_delete_ne; [done|].
      apply Hother; [done|]. rewrite !elem_of_cons in *. tauto.
Qed.

End FurtherProperties.

(** ** createGrdecl and the heap *)

(** The loop writes into its own block only, and keeps the block's size. *)
Lemma copy_mapaxes_heap (n : nat) :
  ∀ (record : DeckRecord) (p : positive) (i : nat) (h : heap)
    (block : list (option double)),
    h !! p = Some block →
    ∃ block', (copy_mapaxes record p i n h).2 = <[p := block']> h ∧
              length block' = length block.
Proof.
  induction n as [|n IH]; intros record p i h block Hp; simpl.
  - exists block. by rewrite insert_id.
  - unfold mbind at 1, M_bind at 1, pure at 1.
    destruct (item ← getItem record i; getSIDouble item 0) as [v|e|]; simpl;
      try (exists block; by rewrite insert_id).
    unfold mbind at 1, M_bind at 1, store at 1. rewrite Hp.
    destruct (decide (i < length block)%nat); simpl;
      [|exists block; by rewrite insert_id].
    destruct (IH record p (S i) (<[p := <[i := Some v]> block]> h)
                (<[i := Some v]> block)) as (block' & Hheap & Hlen);
      [apply lookup_insert_eq|].
    exists block'. rewrite Hheap, insert_insert_eq, Hlen.
    by rewrite length_insert.
Qed.

(** What is left on the heap by the MAPAXES step: the heap as it was, or the
    heap with one new block of one cell per item of the record. *)
Lemma mapaxes_pointer_heap (deck : Deck) (h : heap) :
  (mapaxes_pointer deck h).2 = h ∨
  ∃ keyword record block,
    deck !! "MAPAXES" = Some keyword ∧ keyword !! 0%nat = Some record ∧
    length block = length record ∧
    (mapaxes_pointer deck h).2 = <[fresh (dom h) := block]> h.
Proof.
  unfold mapaxes_pointer.
  destruct (hasKeyword deck "MAPAXES"); [|by left].
  unfold mbind at 1, M_bind at 1, pure at 1, getKeyword, getRecord, at_index.
  destruct (deck !! "MAPAXES") as [kw|] eqn:Hkw; simpl; [|by left].
  destruct (kw !! 0%nat) as [record|] eqn:Hrec; simpl; [|by left].
  right. exists kw, record.
  unfold mbind, M_bind, malloc, pure, mret, M_ret. cbn beta iota zeta.
  destruct (copy_mapaxes_heap (length record) record (fresh (dom h)) 0
              (<[fresh (dom h) := replicate (length record) None]> h)
              (replicate (length record) None)) as (block & Hheap & Hlen);
    [apply lookup_insert_eq|].
  exists block. rewrite length_replicate in Hlen.
  rewrite insert_insert_eq in Hheap.
  split; [done|]. split; [done|]. split; [done|].
  by destruct (copy_mapaxes _ _ _ _ _) as [[[]|e|] h1]; simpl in *.
Qed.

Lemma createGrdecl_heap (deck : Deck) (h : heap) :
  (createGrdecl deck h).2 = h ∨ (createGrdecl deck h).2 = (mapaxes_pointer deck h).2.
Proof.
  unfold createGrdecl, mbind, M_bind, pure.
  destruct (keyword_SIDoubleData deck "ZCORN") as [zcorn'| |]; simpl; try by left.
  destruct (keyword_SIDoubleData deck "COORD") as [coord'| |]; simpl; try by left.
  destruct (actnum_pointer deck) as [actnum'| |]; simpl; try by left.
  destruct (logical_dims deck) as [dims'| |]; simpl; try by left.
  right. by destruct (mapaxes_pointer deck h) as [[ptr| |] h1].
Qed.

(** X11. Whatever its outcome, [createGrdecl] frees and overwrites nothing:
    every block of the heap is still there with its contents, and at most
    one block is new, of one cell per item of the first MAPAXES record. *)
Theorem createGrdecl_frame (deck : Deck) (h : heap) :
  (∀ (q : positive) (block : list (option double)),
     h !! q = Some block → (createGrdecl deck h).2 !! q = Some block) ∧
  ((createGrdecl deck h).2 = h ∨
   ∃ keyword record block,
     deck !! "MAPAXES" = Some keyword ∧ keyword !! 0%nat = Some record ∧
     length block = length record ∧ h !! fresh (dom h) = None ∧
     (createGrdecl deck h).2 = <[fresh (dom h) := block]> h).
Proof.
  assert (Hfresh : h !! fresh (dom h) = None) by apply not_elem_of_dom, is_fresh.
  assert (Hcases : (createGrdecl deck h).2 = h ∨
    ∃ keyword record block,
      deck !! "MAPAXES" = Some keyword ∧ keyword !! 0%nat = Some record ∧
      length block = length record ∧ h !! fresh (dom h) = None ∧
      (createGrdecl deck h).2 = <[fresh (dom h) := block]> h).
  { destruct (createGrdecl_heap deck h) as [Hsame|Hptr]; [by left|].
    destruct (mapaxes_pointer_heap deck h) as [Hsame|(kw & record & block & ? & ? & ? & Hb)].
    - left. by rewrite Hptr.
    - right. exists kw, record, block. by rewrite Hptr. }
  split; [|done].
  intros q block Hq.
  destruct Hcases as [->|(kw & record & block' & _ & _ & _ & _ & ->)]; [done|].
  rewrite lookup_insert_ne; [done|]. intros <-. by rewrite Hfresh in Hq.
Qed.

Lemma item_SIDouble_Throws (record : DeckRecord) (i : nat) (e : exception) :
  (item ← getItem record i; getSIDouble item 0) = Throws e → e = deck_error.
Proof.
  unfold getItem, getSIDouble, at_index.
  destruct (record !! i) as [[data|data]|]; simpl; try by intros [= <-].
  destruct (data !! 0%nat); simpl; by intros [= <-].
Qed.

Lemma item_SIDouble_defined (record : DeckRecord) (i : nat) :
  (item ← getItem record i; getSIDouble item 0) ≠ Undefined.
Proof.
  unfold getItem, getSIDouble, at_index.
  destruct (record !! i) as [[data|data]|]; simpl; try done.
  by destruct (data !! 0%nat).
Qed.

(** The loop stops with the deck's exception at the first item it cannot
    read. *)
Lemma copy_mapaxes_Throws (n : nat) :
  ∀ (record : DeckRecord) (p : positive) (i : nat) (h : heap)
    (block : list (option double)),
    h !! p = Some block → (i + n ≤ length block)%nat →
    (∃ k, (i ≤ k < i + n)%nat ∧
          (item ← getItem record k; getSIDouble item 0) = Throws deck_error) →
    (copy_mapaxes record p i n h).1 = Throws deck_error.
Proof.
  induction n as [|n IH]; intros record p i h block Hp Hlen (k & Hk & Hbad);
    simpl; [lia|].
  unfold mbind at 1, M_bind at 1, pure at 1.
  destruct (item ← getItem record i; getSIDouble item 0) as [v|e|] eqn:Hi; simpl.
  - unfold mbind at 1, M_bind at 1, store at 1. rewrite Hp.
    rewrite decide_True by lia.
    apply (IH record p (S i) _ (<[i := Some v]> block)).
    + apply lookup_insert_eq.
    + rewrite length_insert. lia.
    + exists k. split; [|done].
      destruct (decide (k = i)) as [->|]; [congruence|lia].
  - by apply item_SIDouble_Throws in Hi as ->.
  - by apply item_SIDouble_defined in Hi.
Qed.

(** X12. When an item of the MAPAXES record cannot be read as a double,
    [createGrdecl] fails with the deck's exception after the buffer has been
    allocated, and the buffer stays on the heap: nothing frees it. *)
Theorem createGrdecl_leaks_on_error (deck : Deck) (h : heap)
    (zcorn' coord' : list double) (actnum' : option (list Z)) (dims' : Z * Z * Z)
    (keyword : DeckKeyword) (record : DeckRecord) (k : nat) :
  keyword_SIDoubleData deck "ZCORN" = Returns zcorn' →
  keyword_SIDoubleData deck "COORD" = Returns coord' →
  actnum_pointer deck = Returns actnum' →
  logical_dims deck = Returns dims' →
  deck !! "MAPAXES" = Some keyword → keyword !! 0%nat = Some record →
  (k < length record)%nat →
  (item ← getItem record k; getSIDouble item 0) = Throws deck_error →
  ∃ block,
    createGrdecl deck h = (Throws deck_error, <[fresh (dom h) := block]> h) ∧
    length block = length record ∧
    h !! fresh (dom h) = None.
Proof.
  intros Hz Hc Ha Hd Hkw Hrec Hk Hbad.
  rewrite (createGrdecl_steps _ _ _ _ _ _ Hz Hc Ha Hd).
  unfold mapaxes_pointer. rewrite (hasKeyword_Some _ _ _ Hkw).
  unfold mbind at 1, M_bind at 1, pure at 1, getKeyword, getRecord, at_index.
  rewrite Hkw. cbn [mbind outcome_bind]. rewrite Hrec.
  unfold mbind at 1, M_bind at 1, malloc at 1. cbn zeta.
  unfold mbind at 1, M_bind at 1.
  set (h0 := <[fresh (dom h) := replicate (length record) None]> h).
  destruct (copy_mapaxes_heap (length record) record (fresh (dom h)) 0 h0
              (replicate (length record) None)) as (block & Hheap & Hlen);
    [apply lookup_insert_eq|].
  pose proof (copy_mapaxes_Throws (length record) record (fresh (dom h)) 0 h0
                (replicate (length record) None)) as Hthrow.
  destruct (copy_mapaxes record (fresh (dom h)) 0 (length record) h0)
    as [o h1] eqn:Hloop. simpl in *.
  rewrite Hthrow.
  - exists block. subst h1. unfold h0. rewrite insert_insert_eq.
    split; [done|]. split; [by rewrite Hlen, length_replicate|].
    apply not_elem_of_dom, is_fresh.
  - apply lookup_insert_eq.
  - by rewrite length_replicate.
  - exists k. split; [lia|done].
Qed.

(** ** The errors of the constructors *)

Section Errors.
Context `{GL : GridLibrary}.

Lemma constructed_Throws (ug : option UnstructuredGrid) (what : string)
    (e : exception) :
  constructed ug what = Throws e → e = runtime_error what.
Proof. destruct ug; simpl; [done|]. by intros [= <-]. Qed.

Lemma actnum_pointer_Throws (deck : Deck) (e : exception) :
  actnum_pointer deck = Throws e → e = deck_error.
Proof.
  unfold actnum_pointer, getKeyword, getIntData, getRecord, getItem, at_index.
  destruct (hasKeyword deck "ACTNUM"); [|done].
  destruct (deck !! "ACTNUM") as [kw|]; simpl; [|by intros [= <-]].
  destruct (kw !! 0%nat) as [rec|]; simpl; [|by intros [= <-]].
  destruct (rec !! 0%nat) as [[data|data]|]; simpl; by intros [= <-].
Qed.

Lemma copy_mapaxes_only_deck_error (n : nat) :
  ∀ (record : DeckRecord) (p : positive) (i : nat) (h : heap) (e : exception),
    (copy_mapaxes record p i n h).1 = Throws e → e = deck_error.
Proof.
  induction n as [|n IH]; intros record p i h e; simpl; [done|].
  unfold mbind at 1, M_bind at 1, pure at 1.
  destruct (item ← getItem record i; getSIDouble item 0) as [v|e'|] eqn:Hi; simpl.
  - unfold mbind at 1, M_bind at 1, store at 1.
    destruct (h !! p) as [block|]; [|done].
    destruct (decide (i < length block)%nat); [|done].
    apply IH.
  - intros [= <-]. by eapply item_SIDouble_Throws.
  - done.
Qed.

Lemma mapaxes_pointer_Throws (deck : Deck) (h : heap) (e : exception) :
  (mapaxes_pointer deck h).1 = Throws e → e = deck_error.
Proof.
  unfold mapaxes_pointer.
  destruct (hasKeyword deck "MAPAXES"); [|done].
  unfold mbind at 1, M_bind at 1, pure at 1, getKeyword, getRecord, at_index.
  destruct (deck !! "MAPAXES") as [kw|]; simpl; [|by intros [= <-]].
  destruct (kw !! 0%nat) as [record|]; simpl; [|by intros [= <-]].
  unfold mbind, M_bind, malloc, pure, mret, M_ret. cbn beta iota zeta.
  pose proof (copy_mapaxes_only_deck_error (length record) record (fresh (dom h)) 0
                (<[fresh (dom h) := replicate (length record) None]> h) e) as Hloop.
  destruct (copy_mapaxes _ _ _ _ _) as [[[]|e'|] h1]; simpl in *;
    [done|intros [= <-]; by apply Hloop|done].
Qed.

Lemma createGrdecl_Throws (deck : Deck) (h : heap) (e : exception) :
  (createGrdecl deck h).1 = Throws e →
  e = deck_error ∨ e = runtime_error "Deck must have either DIMENS or SPECGRID.".
Proof.
  unfold createGrdecl, mbind, M_bind, pure.
  destruct (keyword_SIDoubleData deck "ZCORN") as [zcorn'|e'|] eqn:Hz; simpl;
    [|intros [= <-]; left; by eapply keyword_SIDoubleData_Throws|done].
  destruct (keyword_SIDoubleData deck "COORD") as [coord'|e'|] eqn:Hc; simpl;
    [|intros [= <-]; left; by eapply keyword_SIDoubleData_Throws|done].
  destruct (actnum_pointer deck) as [actnum'|e'|] eqn:Ha; simpl;
    [|intros [= <-]; left; by eapply actnum_pointer_Throws|done].
  destruct (logical_dims deck) as [dims'|e'|] eqn:Hd; simpl;
    [|intros [= <-]; by eapply logical_dims_Throws|done].
  pose proof (mapaxes_pointer_Throws deck h e) as Hm.
  destruct (mapaxes_pointer deck h) as [[ptr|e'|] h1]; simpl in *; try done.
  intros [= <-]. left. by apply Hm.
Qed.

Lemma initFromDeckTensorgrid_Throws (deck : Deck) (e : exception) :
  initFromDeckTensorgrid deck = Throws e →
  e = deck_error ∨ ∃ what, e = runtime_error what ∧ construction_message what.
Proof.
  unfold initFromDeckTensorgrid, construction_message.
  destruct (logical_dims deck) as [[[nx ny] nz]|e'|] eqn:Hdims; simpl; [| |done].
  2:{ intros [= <-]. apply logical_dims_Throws in Hdims as [->| ->]; [by left|].
      right. eexists. split; [done|]. tauto. }
  destruct (keyword_SIDoubleData deck "DXV") as [dxv|e'|] eqn:Hx; simpl;
    [|intros [= <-]; left; by eapply keyword_SIDoubleData_Throws|done].
  destruct (keyword_SIDoubleData deck "DYV") as [dyv|e'|] eqn:Hy; simpl;
    [|intros [= <-]; left; by eapply keyword_SIDoubleData_Throws|done].
  destruct (keyword_SIDoubleData deck "DZV") as [dzv|e'|] eqn:Hz; simpl;
    [|intros [= <-]; left; by eapply keyword_SIDoubleData_Throws|done].
  case_bool_decide; [intros [= <-]; right; eexists; split; [done|tauto]|].
  case_bool_decide; [intros [= <-]; right; eexists; split; [done|tauto]|].
  case_bool_decide; [intros [= <-]; right; eexists; split; [done|tauto]|].
  destruct (top_corner_depths _ _ _) as [td|e'|] eqn:Htd; simpl; [| |done].
  - intros ->%constructed_Throws. right. eexists. split; [done|tauto].
  - intros [= <-].
    apply top_corner_depths_Throws in Htd as [->|[[n ->]| ->]]; [by left|..];
      right; eexists; (split; [done|]); [|tauto].
    do 7 right. left. by exists n.
Qed.

(** X13. A constructor that fails throws the deck's own exception or a
    [std::runtime_error] with one of nine causes; the cartesian and file
    constructors and the one on a grid-geometry source have one cause
    each. *)
Theorem construct_Throws (c : construction) (h h' : heap) (e : exception) :
  construct c h = (Throws e, h') →
  (e = deck_error ∧ ∃ deck, c = from_deck deck) ∨
  (∃ what, e = runtime_error what ∧ construction_message what ∧
     match c with
     | from_deck _ => True
     | from_file input_filename =>
         what = "Failed to read grid from file " +:+ input_filename
     | _ => what = "Failed to construct grid."
     end).
Proof.
  assert (Hsimple : ∀ (o : outcome GridManager) ug what,
    o = constructed ug what → pure o h = (Throws e, h') → e = runtime_error what).
  { intros o ug what -> [= Ho _]. by apply constructed_Throws in Ho. }
  destruct c; simpl.
  - unfold GridManager_eclipseGrid, mbind, M_bind, cornerpoint_builder.
    destruct (create_grid_cornerpoint _ d0 h) as [ug h1].
    unfold pure. intros [= ->%constructed_Throws _].
    right. eexists. split; [done|]. split; [by left|done].
  - unfold GridManager_deck.
    destruct (hasKeyword deck "ZCORN" && hasKeyword deck "COORD").
    { unfold initFromDeckCornerpoint. unfold mbind at 1, M_bind at 1.
      pose proof (createGrdecl_Throws deck h) as Hg.
      destruct (createGrdecl deck h) as [[g|e'|] h1]; simpl in *; [| |done].
      - unfold mbind, M_bind, cornerpoint_builder, pure.
        destruct (create_grid_cornerpoint g d0 h1) as [ug h2].
        intros [= ->%constructed_Throws _].
        right. eexists. split; [done|]. split; [by left|done].
      - intros [= <- _]. destruct (Hg e' eq_refl) as [->| ->].
        + left. split; [done|]. by exists deck.
        + right. eexists. split; [done|]. split; [|done].
          unfold construction_message. tauto. }
    destruct (hasKeyword deck "DXV" && hasKeyword deck "DYV" && hasKeyword deck "DZV").
    + unfold pure. intros [= Ht _].
      apply initFromDeckTensorgrid_Throws in Ht as [->|(what & -> & Hmsg)].
      * left. split; [done|]. by exists deck.
      * right. by exists what.
    + unfold pure, OPM_THROW. intros [= <- _].
      right. eexists. split; [done|]. split; [|done].
      unfold construction_message. tauto.
  - intros ->%(Hsimple _ _ _ eq_refl).
    right. eexists. split; [done|]. split; [by left|done].
  - intros ->%(Hsimple _ _ _ eq_refl).
    right. eexists. split; [done|]. split; [by left|done].
  - intros ->%(Hsimple _ _ _ eq_refl).
    right. eexists. split; [done|]. split; [by left|done].
  - intros ->%(Hsimple _ _ _ eq_refl).
    right. eexists. split; [done|]. split; [by left|done].
  - intros ->%(Hsimple _ _ _ eq_refl).
    right. eexists. split; [done|]. split; [|done].
    right; left. by exists input_filename.
Qed.

End Errors.

(** ** mx_init_grdecl: the order of the checks *)

(** X17. The gateway checks cartDims first and ACTNUM second: a cartDims
    that does not hold 3 numbers is reported whatever the other fields are,
    and with three dimensions read, an ACTNUM that is not of class int32, or
    does not hold nx*ny*nz numbers, is reported before COORD and ZCORN are
    looked at. *)
Theorem mx_init_grdecl_first_checks (g : grdecl) (s : gmap string mxArray)
    (cart : mxArray) :
  s !! "cartDims" = Some cart →
  (mxGetNumberOfElements cart ≠ 3 →
   mx_init_grdecl g s = Throws (mex_error "cartDims field must be 3 numbers")) ∧
  (∀ nx ny nz n1 n2 n3 act,
     mxGetNumberOfElements cart = 3 →
     cartDims_round cart 0 1 = Returns (nx, n1) →
     cartDims_round cart 1 n1 = Returns (ny, n2) →
     cartDims_round cart 2 n2 = Returns (nz, n3) →
     s !! "ACTNUM" = Some act →
     mxGetClassID act ≠ mxINT32_CLASS ∨
     (- 2 ^ 31 ≤ nx * ny ≤ INT_MAX ∧ - 2 ^ 31 ≤ nx * ny * nz ≤ INT_MAX ∧
      mxGetNumberOfElements act ≠ nx * ny * nz) →
     mx_init_grdecl g s =
       Throws (mex_error "ACTNUM field must be nx*ny*nz numbers int32")).
Proof.
  intros Hcart. unfold mx_init_grdecl, mxGetField, mexErrMsgTxt.
  rewrite Hcart. simpl. split.
  - intros Hne. by rewrite bool_decide_eq_true_2.
  - intros nx ny nz n1 n2 n3 act Hnumel H0 H1 H2 Hact Hbad.
    rewrite bool_decide_eq_false_2 by (intros Hne; by apply Hne).
    rewrite H0. simpl. rewrite H1. simpl. rewrite H2. simpl.
    rewrite Hact. simpl.
    destruct Hbad as [Hclass|(Hxy & Hxyz & Hsize)].
    + by rewrite bool_decide_eq_true_2.
    + destruct (bool_decide (mxGetClassID act ≠ mxINT32_CLASS)); simpl; [done|].
      rewrite (int_mul_in_range nx ny) by done. simpl.
      rewrite (int_mul_in_range (nx * ny) nz) by done. simpl.
      by rewrite bool_decide_eq_true_2.
Qed.

(** ** The further properties on the inputs above *)

Lemma coordsFromDeltas_running_sum_example :
  coordsFromDeltas [d1; d2; d2] !! 3%nat = Some d5.
Proof.
  apply (coordsFromDeltas_running_sum [d1; d2; d2] 3). simpl. lia.
Defined.

Lemma top_corner_depths_size_example :
  length (replicate 9 d5) = (S (length [d1; d1]) * S (length [d1; d1]))%nat ∧
  replicate 9 d5 ≠ [].
Proof.
  apply (top_corner_depths_size deck_tensor [d1; d1] [d1; d1] (replicate 9 d5)
           ltac:(vm_compute; discriminate) ltac:(vm_compute; discriminate) eq_refl).
Defined.

Lemma initFromDeckTensorgrid_DEPTHZ_size_example :
  initFromDeckTensorgrid (GL := cell_count_library) deck_short_depthz =
    Throws (runtime_error "Incorrect size of DEPTHZ: 4").
Proof.
  apply (initFromDeckTensorgrid_DEPTHZ_size (GL := cell_count_library)
           deck_short_depthz 2 2 1 [d1; d1] [d1; d1] [d1] (replicate 4 d5)
           eq_refl eq_refl eq_refl eq_refl eq_refl eq_refl eq_refl
           ltac:(vm_compute; discriminate) ltac:(vm_compute; discriminate)
           ltac:(vm_compute; discriminate) eq_refl).
  simpl. lia.
Defined.

Lemma initFromDeckTensorgrid_no_top_depths_example :
  initFromDeckTensorgrid (GL := cell_count_library) deck_no_tops =
    constructed
      (create_grid_tensor3d 2 2 1 (coordsFromDeltas [d1; d1])
         (coordsFromDeltas [d1; d1]) (coordsFromDeltas [d1]) None)
      "Failed to construct grid.".
Proof.
  apply (initFromDeckTensorgrid_no_top_depths (GL := cell_count_library)
           deck_no_tops 2 2 1 [d1; d1] [d1; d1] [d1]
           eq_refl eq_refl eq_refl eq_refl eq_refl eq_refl eq_refl eq_refl eq_refl).
Defined.

Lemma initFromDeckTensorgrid_NaN_TOPS_example :
  initFromDeckTensorgrid (GL := cell_count_library) deck_nan_tops =
    Throws (runtime_error
      "We do not support nonuniform TOPS, please use ZCORN/COORDS instead.").
Proof.
  apply (initFromDeckTensorgrid_NaN_TOPS (GL := cell_count_library)
           deck_nan_tops 2 2 1 [d1; d1] [d1; d1] [d1] (replicate 3 NaN)
           eq_refl eq_refl eq_refl eq_refl eq_refl eq_refl eq_refl eq_refl eq_refl
           ltac:(vm_compute; discriminate)).
Defined.

Lemma GridManager_deck_cornerpoint_ignores_example :
  GridManager_deck (GL := cell_count_library)
    (<["TOPS" := data_keyword [d5; d6]]> deck_cornerpoint)
    = GridManager_deck deck_cornerpoint ∧
  GridManager_deck (GL := cell_count_library) (delete "TOPS" deck_cornerpoint)
    = GridManager_deck deck_cornerpoint.
Proof.
  apply (GridManager_deck_cornerpoint_ignores (GL := cell_count_library)
           deck_cornerpoint "TOPS" (data_keyword [d5; d6])
           ltac:(present) ltac:(present)).
  rewrite !elem_of_cons. tauto.
Defined.

Lemma GridManager_deck_tensor_ignores_example :
  GridManager_deck (GL := cell_count_library)
    (<["ZCORN" := data_keyword [d0]]> deck_tensor) = GridManager_deck deck_tensor ∧
  GridManager_deck (GL := cell_count_library) (delete "ZCORN" deck_tensor)
    = GridManager_deck deck_tensor.
Proof.
  apply (proj1 (GridManager_deck_tensor_ignores (GL := cell_count_library)
                  deck_tensor "ZCORN" (data_keyword [d0])) eq_refl).
  rewrite !elem_of_cons. tauto.
Defined.

Lemma createGrdecl_leaks_on_error_example :
  ∃ block,
    createGrdecl deck_int_mapaxes ∅ =
      (Throws deck_error, <[fresh (dom (∅ : heap)) := block]> ∅) ∧
    length block = 6%nat ∧
    (∅ : heap) !! fresh (dom (∅ : heap)) = None.
Proof.
  apply (createGrdecl_leaks_on_error deck_int_mapaxes ∅
           (replicate 4 d0 ++ replicate 4 d1) (replicate 24 d0) None (1, 1, 1)
           [[DeckDoubleItem [d0]; DeckDoubleItem [d1]; DeckIntItem [0];
             DeckDoubleItem [d0]; DeckDoubleItem [d1]; DeckDoubleItem [d0]]]
           [DeckDoubleItem [d0]; DeckDoubleItem [d1]; DeckIntItem [0];
            DeckDoubleItem [d0]; DeckDoubleItem [d1]; DeckDoubleItem [d0]]
           2 eq_refl eq_refl eq_refl eq_refl eq_refl eq_refl
           ltac:(simpl; lia) eq_refl).
Defined.

Lemma createGrdecl_any_sizes_example :
  createGrdecl (<["ZCORN" := [[DeckDoubleItem [d1]]]]>
                  (<["COORD" := [[DeckDoubleItem []]]]> deck_cornerpoint)) ∅ =
    (Returns {| dims := (1, 1, 1); coord := []; zcorn := [d1]; actnum := None;
                mapaxes := mapaxes_NULL |}, ∅).
Proof.
  apply (createGrdecl_any_sizes deck_cornerpoint ∅ ∅
           {| dims := (1, 1, 1); coord := replicate 24 d0;
              zcorn := replicate 4 d0 ++ replicate 4 d1; actnum := None;
              mapaxes := mapaxes_NULL |} [d1] [] eq_refl).
Defined.

Lemma construct_Throws_example :
  (deck_error = deck_error ∧
   ∃ deck, from_file "grid.txt" = from_deck deck) ∨
  (∃ what,
     runtime_error "Failed to read grid from file grid.txt" = runtime_error what ∧
     construction_message what ∧
     what = "Failed to read grid from file " +:+ "grid.txt").
Proof.
  destruct (construct_Throws (GL := cell_count_library) (from_file "grid.txt") ∅ ∅
              (runtime_error "Failed to read grid from file grid.txt") eq_refl)
    as [[Hdeck _]|Hmsg].
  - discriminate Hdeck.
  - right. exact Hmsg.
Defined.

Lemma mx_init_grdecl_Returns_example :
  ∃ nx ny nz data,
    (1, 1, 1) = (nx, ny, nz) ∧ Some [1] = Some data ∧
    int_of_size (length data) = nx * ny * nz ∧
    int_of_size (length (replicate 24 d0)) = 6 * (nx + 1) * (ny + 1) ∧
    int_of_size (length (replicate 4 d0 ++ replicate 4 d1)) = 8 * nx * ny * nz.
Proof.
  apply (mx_init_grdecl_Returns grdecl_blank
           {| dims := (1, 1, 1); coord := replicate 24 d0;
              zcorn := replicate 4 d0 ++ replicate 4 d1; actnum := Some [1];
              mapaxes := mapaxes_NULL |} mx_one_cell eq_refl).
Defined.

Lemma mx_init_grdecl_sizes_example :
  mx_init_grdecl grdecl_blank mx_short_zcorn =
    Throws (mex_error "ZCORN field must have 8*nx*ny*nz doubles.").
Proof.
  apply (proj1 (proj2 (mx_init_grdecl_sizes grdecl_blank mx_short_zcorn
           (mxDoubleArray [d1; d1; d1]) 1 1 1 1 1 1 [1] (replicate 24 d0)
           (replicate 7 d0) eq_refl eq_refl eq_refl eq_refl eq_refl
           ltac:(lia) ltac:(lia) ltac:(lia)
           ltac:(vm_compute; discriminate) ltac:(vm_compute; discriminate)
           eq_refl eq_refl eq_refl eq_refl)));
    vm_compute; [reflexivity | discriminate].
Defined.

Lemma mx_init_grdecl_first_checks_example :
  mx_init_grdecl grdecl_blank mx_two_dims =
    Throws (mex_error "cartDims field must be 3 numbers") ∧
  mx_init_grdecl grdecl_blank mx_double_actnum =
    Throws (mex_error "ACTNUM field must be nx*ny*nz numbers int32").
Proof.
  split.
  - apply (proj1 (mx_init_grdecl_first_checks grdecl_blank mx_two_dims
                    (mxDoubleArray [d1; d1]) eq_refl)).
    vm_compute. discriminate.
  - apply (proj2 (mx_init_grdecl_first_checks grdecl_blank mx_double_actnum
                    (mxDoubleArray [d1; d1; d1]) eq_refl)
             1 1 1 1 1 1 (mxDoubleArray [d1]) eq_refl eq_refl eq_refl eq_refl eq_refl).
    left. discriminate.
Defined.
